(** * Solver applicability and launch configuration of two convolution solvers

    A shallow embedding of [conv_asm_5x10u2v2f1.cpp]: the fixed-shape assembly
    solver [ConvAsm5x10u2v2f1] (namespace [miopen]) and the implicit-GEMM
    backward-data solver [ConvHipImplicitGemmBwdDataV1R1Xdlops] (namespace
    [miopen::solver]).

    C++ [int] is a 32-bit signed integer whose overflow is undefined,
    [unsigned] is a 32-bit and [std::size_t] a 64-bit unsigned integer that
    wrap around.  All of them are carried by [Z]; the wrap-around and the
    undefined cases are written out. *)

From Stdlib Require Import ZArith Bool List String Ascii Lia.
From Stdlib Require Import DecimalString.
From Stdlib Require DecimalN DecimalPos.
Import ListNotations.

Local Open Scope Z_scope.

(** ** Outcomes of a C++ call *)

(** A call returns a value, stops on a failed [assert], or runs into
    undefined behaviour (signed overflow, division by zero). *)
Inductive result (A : Type) : Type :=
| Ret (a : A)
| AssertFail
| Undefined.

Arguments Ret {A} a.
Arguments AssertFail {A}.
Arguments Undefined {A}.

Definition bind {A B : Type} (m : result A) (k : A -> result B) : result B :=
  match m with
  | Ret a => k a
  | AssertFail => AssertFail
  | Undefined => Undefined
  end.

Notation "x <- m ;; k" := (bind m (fun x => k))
  (at level 61, m at next level, right associativity).

(** [assert(cond)]: compiled away when [NDEBUG] is defined. *)
Definition c_assert (NDEBUG : bool) (cond : bool) : result unit :=
  if NDEBUG then Ret tt else if cond then Ret tt else AssertFail.

(** ** Machine integers *)

Definition INT_MIN : Z := - 2 ^ 31.
Definition INT_MAX : Z := 2 ^ 31 - 1.
Definition UINT_MOD : Z := 2 ^ 32.
Definition SIZE_MOD : Z := 2 ^ 64.

Definition in_int (z : Z) : bool := (INT_MIN <=? z) && (z <=? INT_MAX).

(** The value of a signed operation: undefined when it leaves [int]. *)
Definition int_of (z : Z) : result Z := if in_int z then Ret z else Undefined.

Definition int_add (a b : Z) : result Z := int_of (a + b).
Definition int_sub (a b : Z) : result Z := int_of (a - b).
Definition int_mul (a b : Z) : result Z := int_of (a * b).
(** [/] on [int] truncates towards zero. *)
Definition int_div (a b : Z) : result Z :=
  if b =? 0 then Undefined else int_of (Z.quot a b).

(** Conversions between [int] and [unsigned]. *)
Definition to_unsigned (z : Z) : Z := z mod UINT_MOD.
Definition to_int (u : Z) : Z := if u <=? INT_MAX then u else u - UINT_MOD.

Definition uint_add (a b : Z) : Z := (a + b) mod UINT_MOD.
Definition uint_sub (a b : Z) : Z := (a - b) mod UINT_MOD.
Definition uint_mul (a b : Z) : Z := (a * b) mod UINT_MOD.
Definition uint_div (a b : Z) : result Z :=
  if b =? 0 then Undefined else Ret (a / b).

(** Conversion to and arithmetic on [std::size_t]. *)
Definition to_size_t (z : Z) : Z := z mod SIZE_MOD.
Definition size_mul (a b : Z) : Z := (a * b) mod SIZE_MOD.
Definition size_div (a b : Z) : result Z :=
  if b =? 0 then Undefined else Ret (a / b).
Definition size_rem (a b : Z) : result Z :=
  if b =? 0 then Undefined else Ret (a mod b).

(** [std::to_string] of an unsigned and of a signed value. *)
Definition to_string_unsigned (z : Z) : string :=
  NilZero.string_of_uint (N.to_uint (Z.to_N z)).
Definition to_string_int (z : Z) : string :=
  NilZero.string_of_int (Z.to_int z).

(** ** ConvAsm5x10u2v2f1 *)

Module miopen.

Inductive rocm_meta_version : Type := V1 | V2 | V3.

Definition rocm_meta_version_eqb (a b : rocm_meta_version) : bool :=
  match a, b with
  | V1, V1 | V2, V2 | V3, V3 => true
  | _, _ => false
  end.

(** The fields of [ImplementationSearchParameters] the solver reads; all
    sizes are [int].  [device_name] is what
    [params.GetStream().GetDeviceName()] returns. *)
Record ImplementationSearchParameters : Type := {
  assembler_available : bool;
  device_name : string;
  forward : bool;
  weights_layout : string;
  in_layout : string;
  kernel_size0 : Z;
  kernel_size1 : Z;
  pad0 : Z;
  pad1 : Z;
  kernel_stride0 : Z;
  kernel_stride1 : Z;
  n_inputs : Z;
  n_outputs : Z;
  in_width : Z;
  in_height : Z;
  batch_sz : Z;
  rmv : rocm_meta_version
}.

(** The work-size vectors hold [size_t] values; an [int] pushed into them is
    converted. *)
Record KernelUsageDescription : Type := {
  comp_options : string;
  l_wk : list Z;
  g_wk : list Z;
  kernel_file : string;
  kernel_name : string
}.

Record ImplementationUsageDescription : Type := {
  construction_params : list KernelUsageDescription
}.

(** The local [device_is_gfx8_9_no_xnack] of [IsCorrect]. *)
Definition device_is_gfx8_9_no_xnack (name : string) : bool :=
  (name =? "gfx800")%string || (name =? "gfx802")%string ||
  (name =? "gfx803")%string || (name =? "gfx804")%string ||
  (name =? "gfx900")%string.

Section ConvAsm5x10u2v2f1.

(** Whether the translation unit is compiled with [NDEBUG]. *)
Variable NDEBUG : bool.

(** [GenerateClangDefsym(stream, name, value)] of [gcn_asm_utils.hpp]: the
    text of the stream after the call, from its text before. *)
Variable GenerateClangDefsym : string -> string -> Z -> string.

Definition IsCorrect (params : ImplementationSearchParameters) : result bool :=
  if negb (assembler_available params) then Ret false
  else
    let name := device_name params in
    if negb (device_is_gfx8_9_no_xnack name) then Ret false
    else if negb (forward params) then Ret false
    else
      _ <- c_assert NDEBUG (Nat.eqb (String.length (weights_layout params)) 0) ;;
      w2 <- int_mul (pad0 params) 2 ;;
      min_in_width <- int_sub (kernel_size0 params) w2 ;;
      h2 <- int_mul (pad1 params) 2 ;;
      min_in_height <- int_sub (kernel_size1 params) h2 ;;
      let max_in_width := 8192 - 1 in
      let max_in_height := 131077 - 1 in
      Ret ((pad0 params >=? 0)
           && (pad0 params <=? 5)
           && (pad1 params >=? 0)
           && (pad1 params <=? 5)
           && (kernel_stride0 params =? 2)
           && (kernel_stride1 params =? 2)
           && (kernel_size0 params =? 10)
           && (kernel_size1 params =? 5)
           && (n_inputs params >=? 1)
           && (Z.rem (n_outputs params) 16 =? 0)
           && (n_outputs params >=? 1)
           && (in_width params >=? min_in_width)
           && (in_width params <=? max_in_width)
           && (in_height params >=? min_in_height)
           && (in_height params <=? max_in_height)
           && (in_layout params =? "NCHW")%string).

(** [static inline int AlignUp(int val, unsigned step)]: [val] is converted
    to [unsigned], the arithmetic wraps, the result is converted back. *)
Definition AlignUp (val step : Z) : result Z :=
  _ <- c_assert NDEBUG (0 <? step) ;;
  q <- uint_div (uint_sub (uint_add (to_unsigned val) step) 1) step ;;
  Ret (to_int (uint_mul q step)).

(** The local [out_w] of [PrepareForUsage]. *)
Definition out_w (params : ImplementationSearchParameters) : result Z :=
  p2 <- int_mul (pad0 params) 2 ;;
  a <- int_add (in_width params) p2 ;;
  b <- int_add a (kernel_stride0 params) ;;
  c <- int_sub b (kernel_size0 params) ;;
  int_div c (kernel_stride0 params).

(** The local [out_h] of [PrepareForUsage]. *)
Definition out_h (params : ImplementationSearchParameters) : result Z :=
  p2 <- int_mul (pad1 params) 2 ;;
  a <- int_add (in_height params) p2 ;;
  b <- int_add a (kernel_stride1 params) ;;
  c <- int_sub b (kernel_size1 params) ;;
  int_div c (kernel_stride1 params).

Definition PrepareForUsage (params : ImplementationSearchParameters)
  : result ImplementationUsageDescription :=
  ow <- out_w params ;;
  oh <- out_h params ;;
  let options := EmptyString in
  let options := GenerateClangDefsym options "inp_h" (in_height params) in
  let options := GenerateClangDefsym options "inp_w" (in_width params) in
  let options := GenerateClangDefsym options "wei_c" (n_inputs params) in
  let options := GenerateClangDefsym options "wei_k" (n_outputs params) in
  let options := GenerateClangDefsym options "wei_layout" 0 in
  let options := GenerateClangDefsym options "pad_w" (pad0 params) in
  let options := GenerateClangDefsym options "pad_h" (pad1 params) in
  let options :=
    GenerateClangDefsym options "ROCM_METADATA_VERSION"
      (if rocm_meta_version_eqb (rmv params) V1 then 1
       else if rocm_meta_version_eqb (rmv params) V2 then 2 else 3) in
  let l := [to_size_t 64] in
  let l := l ++ [to_size_t 8] in
  let l := l ++ [to_size_t 1] in
  g0 <- AlignUp ow 64 ;;
  let g := [to_size_t g0] in
  a1 <- AlignUp oh 4 ;;
  q1 <- int_div a1 4 ;;
  k2 <- int_div (n_outputs params) 2 ;;
  a2 <- AlignUp k2 8 ;;
  g1 <- int_mul q1 a2 ;;
  let g := g ++ [to_size_t g1] in
  let g := g ++ [to_size_t (batch_sz params)] in
  Ret {| construction_params :=
           [] ++ [ {| comp_options := options;
                      l_wk := l;
                      g_wk := g;
                      kernel_file := "conv5x10u2v2f1.s";
                      kernel_name := "conv5x10u2v2f1" |} ] |}.

End ConvAsm5x10u2v2f1.

(** ** ConvHipImplicitGemmBwdDataV1R1Xdlops *)

Module solver.

(** Modelled from the spec: the problem descriptor's direction, one of
    Forward, BackwardData and BackwardWeights ([ctx.direction], declared in a
    header outside the source). *)
Inductive Direction : Type := Forward | BackwardData | BackwardWeights.

Definition IsBackwardData (d : Direction) : bool :=
  match d with BackwardData => true | _ => false end.

(** Modelled from the spec: the element datatype.  The spec names fp32
    ([miopenFloat]), fp16 ([miopenHalf]) and bfp16 ([miopenBFloat16]); the
    integer types stand for the datatypes the applicability test turns
    away. *)
Inductive miopenDataType_t : Type :=
| miopenHalf
| miopenFloat
| miopenInt32
| miopenInt8
| miopenInt8x4
| miopenBFloat16.

(** Modelled from the spec: [miopen::GetTypeSize], the size of an element in
    bytes; the spec gives [sizeof(fp32) = 4]. *)
Definition GetTypeSize (d : miopenDataType_t) : Z :=
  match d with
  | miopenHalf => 2
  | miopenFloat => 4
  | miopenInt32 => 4
  | miopenInt8 => 1
  | miopenInt8x4 => 4
  | miopenBFloat16 => 2
  end.

(** Modelled from the spec: [ConvolutionContext] and the getters of
    [ConvolutionContextInterpreter], declared in headers outside the source.
    Each getter reads one [int] of the problem descriptor (spatial rank,
    batch size N, channels C and K, input Hi x Wi, output Ho x Wo, filter
    Y x X, strides, dilations, pads, group count). *)
Record ConvolutionContext : Type := {
  direction : Direction;
  spatial_dims : Z;
  data_type : miopenDataType_t;
  group_counts : Z;
  general_compile_options : string;
  GetBatchN : Z;
  GetOutputChannelK : Z;
  GetInputChannelC : Z;
  GetInputHeightHi : Z;
  GetInputWidthWi : Z;
  GetOutputHeightHo : Z;
  GetOutputWidthWo : Z;
  GetFilterHeightY : Z;
  GetFilterWidthX : Z;
  GetConvolutionStrideH : Z;
  GetConvolutionStrideW : Z;
  GetConvolutionDilationH : Z;
  GetConvolutionDilationW : Z;
  GetInputLeftPadH : Z;
  GetInputLeftPadW : Z;
  GetAdjustedInputRightPadH : Z;
  GetAdjustedInputRightPadW : Z
}.

Definition Is2d (ctx : ConvolutionContext) : bool := spatial_dims ctx =? 2.

Definition IsFp32 (ctx : ConvolutionContext) : bool :=
  match data_type ctx with miopenFloat => true | _ => false end.
Definition IsFp16 (ctx : ConvolutionContext) : bool :=
  match data_type ctx with miopenHalf => true | _ => false end.
Definition IsBfp16 (ctx : ConvolutionContext) : bool :=
  match data_type ctx with miopenBFloat16 => true | _ => false end.

Record KernelInfo : Type := {
  comp_options : string;
  l_wk : list Z;
  g_wk : list Z;
  kernel_file : string;
  kernel_name : string
}.

Record ConvSolution : Type := {
  workspce_sz : Z;
  construction_params : list KernelInfo
}.

Definition bool_char (b : bool) : string := if b then "1" else "0".

Section ConvHipImplicitGemmBwdDataV1R1Xdlops.

(** The helpers of [implicitgemm_util.hpp] and the two environment switches
    read through [miopen::IsEnabled]; none is in the source. *)
Variable IsXdlopsSupport : ConvolutionContext -> bool.
Variable GetEPackLength : ConvolutionContext -> bool -> Z.
Variable use_amd_inline_asm : ConvolutionContext -> bool.
Variable support_amd_buffer_atomic_add : ConvolutionContext -> bool.
Variable MIOPEN_DEBUG_IMPLICIT_GEMM_XDLOPS_INLINE_ASM : bool.
Variable MIOPEN_DEBUG_CONV_IMPLICIT_GEMM_XDLOPS_EMULATE : bool.

Definition GetWorkspaceSize (ctx : ConvolutionContext) : Z :=
  if IsFp32 ctx then 0
  else
    let n := to_size_t (GetBatchN ctx) in
    let c := to_size_t (GetInputChannelC ctx) in
    let hi := to_size_t (GetInputHeightHi ctx) in
    let wi := to_size_t (GetInputWidthWi ctx) in
    size_mul (size_mul (size_mul (size_mul n c) hi) wi)
             (to_size_t (GetTypeSize miopenFloat)).

Definition IsApplicable (ctx : ConvolutionContext) : result bool :=
  if negb (IsBackwardData (direction ctx)) then Ret false
  else if negb (Is2d ctx) then Ret false
  else if negb (IsFp32 ctx || IsFp16 ctx || IsBfp16 ctx) then Ret false
  else
    let n := to_size_t (GetBatchN ctx) in
    k' <- int_div (GetOutputChannelK ctx) (group_counts ctx) ;;
    let k := to_size_t k' in
    c' <- int_div (GetInputChannelC ctx) (group_counts ctx) ;;
    let c := to_size_t c' in
    let y := to_size_t (GetFilterHeightY ctx) in
    let x := to_size_t (GetFilterWidthX ctx) in
    let ho := to_size_t (GetOutputHeightHo ctx) in
    let wo := to_size_t (GetOutputWidthWo ctx) in
    r <- size_rem k (to_size_t (GetEPackLength ctx true)) ;;
    if negb (r =? 0) then Ret false
    else
      nonVectorizedK <- size_div k (to_size_t (GetEPackLength ctx true)) ;;
      Ret (IsXdlopsSupport ctx
           && (size_mul (size_mul n ho) wo mod 128 =? 0)
           && (size_mul (size_mul c y) x mod 128 =? 0)
           && (nonVectorizedK mod 16 =? 0)).

Definition GetSolution (ctx : ConvolutionContext) : ConvSolution :=
  let n := to_size_t (GetBatchN ctx) in
  let k := to_size_t (GetOutputChannelK ctx) in
  let c := to_size_t (GetInputChannelC ctx) in
  let hi := to_size_t (GetInputHeightHi ctx) in
  let wi := to_size_t (GetInputWidthWi ctx) in
  let ho := to_size_t (GetOutputHeightHo ctx) in
  let wo := to_size_t (GetOutputWidthWo ctx) in
  let y := to_size_t (GetFilterHeightY ctx) in
  let x := to_size_t (GetFilterWidthX ctx) in
  let conv_stride_h := to_size_t (GetConvolutionStrideH ctx) in
  let conv_stride_w := to_size_t (GetConvolutionStrideW ctx) in
  let conv_dilation_h := to_size_t (GetConvolutionDilationH ctx) in
  let conv_dilation_w := to_size_t (GetConvolutionDilationW ctx) in
  let in_left_pad_h := to_size_t (GetInputLeftPadH ctx) in
  let in_left_pad_w := to_size_t (GetInputLeftPadW ctx) in
  let in_right_pad_h := to_size_t (GetAdjustedInputRightPadH ctx) in
  let in_right_pad_w := to_size_t (GetAdjustedInputRightPadW ctx) in
  let gemm_m := size_mul (size_mul c y) x in
  let gemm_n := size_mul (size_mul n ho) wo in
  let gemm_m_per_block := 128 in
  let gemm_n_per_block := 128 in
  let block_size := 256 in
  let grid_size :=
    size_mul (gemm_m / gemm_m_per_block) (gemm_n / gemm_n_per_block) in
  let lkl_wk0 := to_size_t block_size in
  let lkl_wk1 := 1 in
  let lkl_wk2 := 1 in
  let l := [lkl_wk0] in
  let l := l ++ [lkl_wk1] in
  let l := l ++ [lkl_wk2] in
  let gbl_wk0 := size_mul lkl_wk0 grid_size in
  let gbl_wk1 := 1 in
  let gbl_wk2 := 1 in
  let g := [gbl_wk0] in
  let g := g ++ [gbl_wk1] in
  let g := g ++ [gbl_wk2] in
  let file_name :=
    (if group_counts ctx >? 1
     then ("gridwise_convolution_backward_data_implicit_gemm_v1r1_xdlops_gnchw_gkcyx_gnkhw.cpp",
           "gridwise_convolution_backward_data_implicit_gemm_v1r1_xdlops_gnchw_gkcyx_gnkhw")
     else ("gridwise_convolution_backward_data_implicit_gemm_v1r1_xdlops_nchw_kcyx_nkhw.cpp",
           "gridwise_convolution_backward_data_implicit_gemm_v1r1_xdlops_nchw_kcyx_nkhw"))%string in
  let workspce := GetWorkspaceSize ctx in
  let options :=
    (" -std=c++14 " ++
     " -DCK_PARAM_PROBLEM_N=" ++ to_string_unsigned n ++
     " -DCK_PARAM_PROBLEM_K=" ++ to_string_unsigned k ++
     " -DCK_PARAM_PROBLEM_C=" ++ to_string_unsigned c ++
     " -DCK_PARAM_PROBLEM_HI=" ++ to_string_unsigned hi ++
     " -DCK_PARAM_PROBLEM_WI=" ++ to_string_unsigned wi ++
     " -DCK_PARAM_PROBLEM_HO=" ++ to_string_unsigned ho ++
     " -DCK_PARAM_PROBLEM_WO=" ++ to_string_unsigned wo ++
     " -DCK_PARAM_PROBLEM_Y=" ++ to_string_unsigned y ++
     " -DCK_PARAM_PROBLEM_X=" ++ to_string_unsigned x ++
     " -DCK_PARAM_PROBLEM_CONV_STRIDE_H=" ++ to_string_unsigned conv_stride_h ++
     " -DCK_PARAM_PROBLEM_CONV_STRIDE_W=" ++ to_string_unsigned conv_stride_w ++
     " -DCK_PARAM_PROBLEM_CONV_DILATION_H=" ++ to_string_unsigned conv_dilation_h ++
     " -DCK_PARAM_PROBLEM_CONV_DILATION_W=" ++ to_string_unsigned conv_dilation_w ++
     " -DCK_PARAM_PROBLEM_IN_LEFT_PAD_H=" ++ to_string_unsigned in_left_pad_h ++
     " -DCK_PARAM_PROBLEM_IN_LEFT_PAD_W=" ++ to_string_unsigned in_left_pad_w ++
     " -DCK_PARAM_PROBLEM_IN_RIGHT_PAD_H=" ++ to_string_unsigned in_right_pad_h ++
     " -DCK_PARAM_PROBLEM_IN_RIGHT_PAD_W=" ++ to_string_unsigned in_right_pad_w ++
     " -DCK_PARAM_PROBLEM_CONV_GROUP_COUNTS=" ++ to_string_int (group_counts ctx) ++
     " -DCK_PARAM_TUNABLE_BLOCK_SIZE=" ++ to_string_int block_size ++
     " -DCK_PARAM_TUNABLE_GEMM_M_PER_BLOCK=" ++ to_string_unsigned gemm_m_per_block ++
     " -DCK_PARAM_TUNABLE_GEMM_N_PER_BLOCK=" ++ to_string_unsigned gemm_n_per_block ++
     " -DCK_PARAM_TUNABLE_GEMM_K_PER_BLOCK=" ++ to_string_int 16 ++
     " -DCK_PARAM_GEMM_M_PER_WAVE=" ++ to_string_int 64 ++
     " -DCK_PARAM_GEMM_N_PER_WAVE=" ++ to_string_int 64 ++
     " -DCK_PARAM_TUNABLE_GEMM_A_BLOCK_COPY_CLUSTER_LENGTHS_GEMM_K=" ++ to_string_int 4 ++
     " -DCK_PARAM_TUNABLE_GEMM_A_BLOCK_COPY_CLUSTER_LENGTHS_GEMM_M=" ++ to_string_int 64 ++
     " -DCK_PARAM_TUNABLE_GEMM_A_BLOCK_COPY_SRC_DATA_PER_READ_GEMM_M=" ++ to_string_int 1 ++
     " -DCK_PARAM_TUNABLE_GEMM_B_BLOCK_COPY_CLUSTER_LENGTHS_GEMM_K=" ++ to_string_int 8 ++
     " -DCK_PARAM_TUNABLE_GEMM_B_BLOCK_COPY_CLUSTER_LENGTHS_GEMM_N=" ++ to_string_int 32 ++
     " -DCK_PARAM_TUNABLE_GEMM_B_BLOCK_COPY_SRC_DATA_PER_READ_GEMM_N=" ++ to_string_int 1 ++
     " -DCK_PARAM_DEPENDENT_GRID_SIZE=" ++ to_string_unsigned grid_size ++
     " -DCK_THREADWISE_GEMM_USE_AMD_INLINE_ASM=" ++ bool_char (use_amd_inline_asm ctx) ++
     " -DCK_USE_AMD_BUFFER_ATOMIC_ADD=" ++ bool_char (support_amd_buffer_atomic_add ctx) ++
     " -DCK_USE_AMD_XDLOPS=" ++ to_string_int (if IsXdlopsSupport ctx then 1 else 0) ++
     " -DCK_USE_AMD_XDLOPS_INLINE_ASM=" ++
       to_string_int (if MIOPEN_DEBUG_IMPLICIT_GEMM_XDLOPS_INLINE_ASM then 1 else 0) ++
     " -DCK_USE_AMD_XDLOPS_EMULATE=" ++
       bool_char MIOPEN_DEBUG_CONV_IMPLICIT_GEMM_XDLOPS_EMULATE ++
     " -D__HIP_PLATFORM_HCC__=1" ++
     general_compile_options ctx)%string in
  let options :=
    (if IsFp32 ctx
     then options ++
          " -DCK_PARAM_TUNABLE_GEMM_A_BLOCK_COPY_DST_DATA_PER_WRITE_GEMM_M=" ++
          to_string_int 1 ++
          " -DCK_PARAM_TUNABLE_GEMM_B_BLOCK_COPY_DST_DATA_PER_WRITE_GEMM_N=" ++
          to_string_int 1
     else options ++
          " -DCK_PARAM_KPACK_LENGTH=" ++ to_string_int (GetEPackLength ctx true) ++
          " -DCK_PARAM_TUNABLE_GEMM_A_BLOCK_COPY_DST_DATA_PER_WRITE_GEMM_KPACK=" ++
          to_string_int 1 ++
          " -DCK_PARAM_TUNABLE_GEMM_B_BLOCK_COPY_DST_DATA_PER_WRITE_GEMM_KPACK=" ++
          to_string_int 1)%string in
  {| workspce_sz := workspce;
     construction_params :=
       [] ++ [ {| comp_options := options;
                  l_wk := l;
                  g_wk := g;
                  kernel_file := fst file_name;
                  kernel_name := snd file_name |} ] |}.

End ConvHipImplicitGemmBwdDataV1R1Xdlops.

End solver.

End miopen.

Import miopen.

(** ** Specification-level arithmetic *)

(** [ceil (v / s)] for a positive [s]. *)
Definition ceil_div (v s : Z) : Z := - ((- v) / s).

(** [ceil (v / s) * s]. *)
Definition align_up (v s : Z) : Z := ceil_div v s * s.

(** The output size of a convolution along one axis, with floor division. *)
Definition out_size (input pad kernel stride : Z) : Z :=
  (input + 2 * pad - (kernel - stride)) / stride.

(** The shape constraints [IsCorrect] returns the conjunction of. *)
Definition shape_ok (p : ImplementationSearchParameters) : Prop :=
  0 <= pad0 p <= 5 /\ 0 <= pad1 p <= 5 /\
  kernel_stride0 p = 2 /\ kernel_stride1 p = 2 /\
  kernel_size0 p = 10 /\ kernel_size1 p = 5 /\
  1 <= n_inputs p /\
  1 <= n_outputs p /\ (16 | n_outputs p) /\
  kernel_size0 p - 2 * pad0 p <= in_width p <= 8191 /\
  kernel_size1 p - 2 * pad1 p <= in_height p <= 131076 /\
  in_layout p = "NCHW"%string.

(** The second global work size of [PrepareForUsage], as the spec writes it. *)
Definition dim1 (p : ImplementationSearchParameters) : Z :=
  align_up (out_size (in_height p) (pad1 p) (kernel_size1 p) (kernel_stride1 p)) 4 / 4
  * align_up (n_outputs p / 2) 8.

(** ** Example inputs *)

(** One way [GenerateClangDefsym] can write a definition to the stream. *)
Definition defsym_text (stream name : string) (value : Z) : string :=
  (stream ++ " -Wa,-defsym," ++ name ++ "=" ++ to_string_int value)%string.

(** A 14 x 23 image, 3 input and 32 output channels, batch of 8. *)
Definition params_small : ImplementationSearchParameters :=
  {| assembler_available := true; device_name := "gfx900"; forward := true;
     weights_layout := ""; in_layout := "NCHW";
     kernel_size0 := 10; kernel_size1 := 5; pad0 := 0; pad1 := 0;
     kernel_stride0 := 2; kernel_stride1 := 2; n_inputs := 3; n_outputs := 32;
     in_width := 14; in_height := 23; batch_sz := 8; rmv := V3 |}.

(** The same problem with a weights layout given. *)
Definition params_kchw : ImplementationSearchParameters :=
  {| assembler_available := true; device_name := "gfx900"; forward := true;
     weights_layout := "KCHW"; in_layout := "NCHW";
     kernel_size0 := 10; kernel_size1 := 5; pad0 := 0; pad1 := 0;
     kernel_stride0 := 2; kernel_stride1 := 2; n_inputs := 3; n_outputs := 32;
     in_width := 14; in_height := 23; batch_sz := 8; rmv := V3 |}.

(** The KCHW problem in the backward direction. *)
Definition params_kchw_backward : ImplementationSearchParameters :=
  {| assembler_available := true; device_name := "gfx900"; forward := false;
     weights_layout := "KCHW"; in_layout := "NCHW";
     kernel_size0 := 10; kernel_size1 := 5; pad0 := 0; pad1 := 0;
     kernel_stride0 := 2; kernel_stride1 := 2; n_inputs := 3; n_outputs := 32;
     in_width := 14; in_height := 23; batch_sz := 8; rmv := V3 |}.

(** The small problem with an image 5 wide, narrower than the filter. *)
Definition params_narrow : ImplementationSearchParameters :=
  {| assembler_available := true; device_name := "gfx900"; forward := true;
     weights_layout := ""; in_layout := "NCHW";
     kernel_size0 := 10; kernel_size1 := 5; pad0 := 0; pad1 := 0;
     kernel_stride0 := 2; kernel_stride1 := 2; n_inputs := 3; n_outputs := 32;
     in_width := 5; in_height := 23; batch_sz := 8; rmv := V3 |}.

(** The tallest image and the largest multiple of 16 an [int] holds as the
    number of output channels. *)
Definition params_wide : ImplementationSearchParameters :=
  {| assembler_available := true; device_name := "gfx900"; forward := true;
     weights_layout := ""; in_layout := "NCHW";
     kernel_size0 := 10; kernel_size1 := 5; pad0 := 0; pad1 := 0;
     kernel_stride0 := 2; kernel_stride1 := 2; n_inputs := 3;
     n_outputs := 2147483632;
     in_width := 14; in_height := 131076; batch_sz := 8; rmv := V3 |}.

(** ** Example contexts of the implicit-GEMM solver *)

Section ImplicitGemmExamples.
Import solver.

(** Xdlops is available on every context. *)
Definition xdlops_on (ctx : ConvolutionContext) : bool := true.

(** One element for fp32, four packed fp16 elements with xdlops and two
    without, two packed bfp16 elements. *)
Definition epack_by_type (ctx : ConvolutionContext) (isXdlopsInvoked : bool) : Z :=
  match data_type ctx with
  | miopenHalf => if xdlops_on ctx && isXdlopsInvoked then 4 else 2
  | miopenBFloat16 => 2
  | _ => 1
  end.

(** Inline assembly in use, no atomic add at reduced precision. *)
Definition inline_asm_on (ctx : ConvolutionContext) : bool := true.
Definition atomic_add_off (ctx : ConvolutionContext) : bool := false.

(** A context with the given datatype, group count, N, K, C, Hi, Wi, Ho, Wo,
    Y and X: backward data, 2D, unit strides and dilations, no padding. *)
Definition bwd_ctx (t : miopenDataType_t) (g n k c hi wi ho wo y x : Z)
  : ConvolutionContext :=
  {| direction := BackwardData; spatial_dims := 2; data_type := t;
     group_counts := g; general_compile_options := "";
     GetBatchN := n; GetOutputChannelK := k; GetInputChannelC := c;
     GetInputHeightHi := hi; GetInputWidthWi := wi;
     GetOutputHeightHo := ho; GetOutputWidthWo := wo;
     GetFilterHeightY := y; GetFilterWidthX := x;
     GetConvolutionStrideH := 1; GetConvolutionStrideW := 1;
     GetConvolutionDilationH := 1; GetConvolutionDilationW := 1;
     GetInputLeftPadH := 0; GetInputLeftPadW := 0;
     GetAdjustedInputRightPadH := 0; GetAdjustedInputRightPadW := 0 |}.

(** fp16 and fp32, N = 8, C = 3, Hi = Wi = 224. *)
Definition ctx_fp16 : ConvolutionContext :=
  bwd_ctx miopenHalf 1 8 64 3 224 224 222 222 3 3.
Definition ctx_fp32 : ConvolutionContext :=
  bwd_ctx miopenFloat 1 8 64 3 224 224 222 222 3 3.

(** fp16, every one of N, C, Hi and Wi equal to 65536. *)
Definition ctx_huge : ConvolutionContext :=
  bwd_ctx miopenHalf 1 65536 64 65536 65536 65536 65536 65536 1 1.

(** A 1x1 filter over 28 x 28 images: N = 128, K = 64, C = 128. *)
Definition ctx_1x1 : ConvolutionContext :=
  bwd_ctx miopenHalf 1 128 64 128 28 28 28 28 1 1.

(** Five input channels in two groups, an 8 x 8 filter. *)
Definition ctx_uneven_groups : ConvolutionContext :=
  bwd_ctx miopenFloat 2 128 32 5 8 8 1 1 8 8.

(** C = Y = X = 2^22: the product C*Y*X is 2^66. *)
Definition ctx_wrap : ConvolutionContext :=
  bwd_ctx miopenFloat 1 128 16 4194304 4194304 4194304 1 1 4194304 4194304.

(** The 1x1 example with a group count of 0. *)
Definition ctx_no_groups : ConvolutionContext :=
  bwd_ctx miopenHalf 0 128 64 128 28 28 28 28 1 1.

(** Xdlops is available on no context. *)
Definition xdlops_off (ctx : ConvolutionContext) : bool := false.

End ImplicitGemmExamples.

(** What [PrepareForUsage] returns on the small problem. *)
Definition usage_small : ImplementationUsageDescription :=
  Eval vm_compute in
    match PrepareForUsage false defsym_text params_small with
    | Ret r => r
    | _ => {| construction_params := [] |}
    end.

(** ** Machine arithmetic lemmas *)

(** Replaces the limits of the machine types by their numerals. *)
Ltac limits :=
  change INT_MIN with (-2147483648) in *;
  change INT_MAX with 2147483647 in *;
  change UINT_MOD with 4294967296 in *;
  change SIZE_MOD with 18446744073709551616 in *.

Lemma in_int_iff z : in_int z = true <-> INT_MIN <= z <= INT_MAX.
Proof.
  unfold in_int. rewrite andb_true_iff, !Z.leb_le. tauto.
Qed.

Lemma int_of_in z : INT_MIN <= z <= INT_MAX -> int_of z = Ret z.
Proof.
  intro H. unfold int_of. apply in_int_iff in H. now rewrite H.
Qed.

Lemma int_of_Ret z r : int_of z = Ret r -> r = z /\ INT_MIN <= z <= INT_MAX.
Proof.
  unfold int_of. destruct (in_int z) eqn:E; [|discriminate].
  intro H. injection H as <-. split; [reflexivity | now apply in_int_iff].
Qed.

Lemma bind_Ret {A B} (m : result A) (k : A -> result B) (b : B) :
  bind m k = Ret b -> exists a, m = Ret a /\ k a = Ret b.
Proof.
  destruct m; simpl; try discriminate. intro H. now exists a.
Qed.

Lemma ceil_div_add v s : 0 < s -> ceil_div v s = (v + s - 1) / s.
Proof.
  intro Hs. unfold ceil_div.
  pose proof (Z.div_mod (- v) s ltac:(lia)) as H1.
  pose proof (Z.mod_pos_bound (- v) s Hs) as H2.
  apply Z.div_unique with (r := s - 1 - (- v) mod s); lia.
Qed.

Lemma align_up_multiple v s : (s | align_up v s).
Proof. unfold align_up. apply Z.divide_factor_r. Qed.

Lemma align_up_ge v s : 0 < s -> v <= align_up v s.
Proof.
  intro Hs. unfold align_up, ceil_div.
  pose proof (Z.div_mod (- v) s ltac:(lia)) as H1.
  pose proof (Z.mod_pos_bound (- v) s Hs) as H2.
  nia.
Qed.

Lemma align_up_least v s m : 0 < s -> (s | m) -> v <= m -> align_up v s <= m.
Proof.
  intros Hs [q ->] Hv. unfold align_up, ceil_div.
  pose proof (Z.div_mod (- v) s ltac:(lia)) as H1.
  pose proof (Z.mod_pos_bound (- v) s Hs) as H2.
  assert (- ((- v) / s) <= q) by nia.
  nia.
Qed.

Lemma align_up_nonneg v s : 0 < s -> 0 <= v -> 0 <= align_up v s.
Proof. intros Hs Hv. pose proof (align_up_ge v s Hs). lia. Qed.

(** [AlignUp] on its intended domain: the result is [align_up] as soon as
    that value is an [int]. *)
Lemma AlignUp_align_up NDEBUG val step :
  0 <= val <= INT_MAX -> 0 < step < UINT_MOD -> align_up val step <= INT_MAX ->
  AlignUp NDEBUG val step = Ret (align_up val step).
Proof.
  intros Hv Hs Hm. unfold AlignUp.
  assert (Ha : c_assert NDEBUG (0 <? step) = Ret tt).
  { unfold c_assert. destruct NDEBUG; [reflexivity|].
    destruct (Z.ltb_spec 0 step); [reflexivity | lia]. }
  rewrite Ha. cbn [bind].
  assert (Hsum : 0 <= val + step - 1 < UINT_MOD).
  { limits. split; [lia|].
    destruct (Z.eq_dec val 0) as [-> | Hnz]; [lia|].
    pose proof (align_up_ge val step ltac:(lia)).
    pose proof (align_up_multiple val step) as [q Hq].
    assert (1 <= q) by nia. nia. }
  assert (Hu : uint_sub (uint_add (to_unsigned val) step) 1 = val + step - 1).
  { unfold uint_sub, uint_add, to_unsigned.
    rewrite Zplus_mod_idemp_l, Zminus_mod_idemp_l.
    apply Z.mod_small. exact Hsum. }
  rewrite Hu. unfold uint_div.
  destruct (Z.eqb_spec step 0) as [E | _]; [lia|]. cbn [bind].
  rewrite <- ceil_div_add by lia.
  pose proof (align_up_nonneg val step ltac:(lia) ltac:(lia)).
  unfold uint_mul. change (ceil_div val step * step) with (align_up val step).
  rewrite Z.mod_small by (limits; lia).
  unfold to_int. destruct (Z.leb_spec (align_up val step) INT_MAX); [reflexivity | lia].
Qed.

(** ** The applicability test of ConvAsm5x10u2v2f1 *)

Lemma rem16_divide n : Z.rem n 16 = 0 <-> (16 | n).
Proof.
  split.
  - intro H. exists (Z.quot n 16). pose proof (Z.quot_rem' n 16). lia.
  - intros [q ->]. apply Z.rem_mul. lia.
Qed.

Ltac bools :=
  repeat match goal with
  | H : _ && _ = true |- _ => apply andb_true_iff in H; destruct H
  | H : (_ >=? _) = true |- _ => apply Z.geb_le in H
  | H : (_ <=? _) = true |- _ => apply Z.leb_le in H
  | H : (_ =? _) = true |- _ => apply Z.eqb_eq in H
  | H : (_ =? _)%string = true |- _ => apply String.eqb_eq in H
  end.

Lemma IsCorrect_true_shape NDEBUG p : IsCorrect NDEBUG p = Ret true -> shape_ok p.
Proof.
  unfold IsCorrect.
  destruct (negb (assembler_available p)); [discriminate|].
  destruct (negb (device_is_gfx8_9_no_xnack (device_name p))); [discriminate|].
  destruct (negb (forward p)); [discriminate|].
  intro H.
  apply bind_Ret in H as (_ & _ & H).
  apply bind_Ret in H as (w2 & Hw2 & H).
  apply bind_Ret in H as (mw & Hmw & H).
  apply bind_Ret in H as (h2 & Hh2 & H).
  apply bind_Ret in H as (mh & Hmh & H).
  apply int_of_Ret in Hw2 as [-> _], Hmw as [-> _], Hh2 as [-> _], Hmh as [-> _].
  injection H as H. bools.
  match goal with H : Z.rem _ 16 = 0 |- _ => apply rem16_divide in H end.
  unfold shape_ok. repeat split; try assumption; lia.
Qed.

Lemma shape_IsCorrect NDEBUG p :
  assembler_available p = true ->
  device_is_gfx8_9_no_xnack (device_name p) = true ->
  forward p = true ->
  weights_layout p = ""%string ->
  shape_ok p -> IsCorrect NDEBUG p = Ret true.
Proof.
  intros Ha Hd Hf Hw (Hp0 & Hp1 & Hs0 & Hs1 & Hk0 & Hk1 & Hc & Hn & Hn16 & Hiw & Hih & Hl).
  unfold IsCorrect. rewrite Ha, Hd, Hf, Hw. cbn [negb].
  replace (c_assert NDEBUG (Nat.eqb (String.length "") 0)) with (Ret tt)
    by (destruct NDEBUG; reflexivity).
  cbn [bind]. unfold int_mul, int_sub.
  rewrite (int_of_in (pad0 p * 2)) by (limits; lia). cbn [bind].
  rewrite (int_of_in (kernel_size0 p - pad0 p * 2)) by (limits; lia). cbn [bind].
  rewrite (int_of_in (pad1 p * 2)) by (limits; lia). cbn [bind].
  rewrite (int_of_in (kernel_size1 p - pad1 p * 2)) by (limits; lia). cbn [bind].
  f_equal.
  apply rem16_divide in Hn16.
  repeat (apply andb_true_iff; split);
    first [ apply Z.geb_le; lia | apply Z.leb_le; lia | apply Z.eqb_eq; lia
          | apply String.eqb_eq; assumption ].
Qed.

(** C5.  With the default (empty) weights layout, a whitelisted device, an
    available assembler and the forward direction, [IsCorrect] returns true
    exactly when: both paddings are in [0,5], the stride is (2,2), the filter
    is 10 wide and 5 high, there is at least one input channel, the number of
    output channels is at least 1 and divisible by 16, the input width is in
    [filter_width - 2*pad_w, 8191], the input height is in
    [filter_height - 2*pad_h, 131076], and the input layout is NCHW. *)
Theorem IsCorrect_true_iff (NDEBUG : bool) (p : ImplementationSearchParameters) :
  weights_layout p = ""%string ->
  In (device_name p) ["gfx800"; "gfx802"; "gfx803"; "gfx804"; "gfx900"]%string ->
  assembler_available p = true ->
  forward p = true ->
  (IsCorrect NDEBUG p = Ret true <->
   0 <= pad0 p <= 5 /\ 0 <= pad1 p <= 5 /\
   kernel_stride0 p = 2 /\ kernel_stride1 p = 2 /\
   kernel_size0 p = 10 /\ kernel_size1 p = 5 /\
   1 <= n_inputs p /\
   1 <= n_outputs p /\ (16 | n_outputs p) /\
   kernel_size0 p - 2 * pad0 p <= in_width p <= 8191 /\
   kernel_size1 p - 2 * pad1 p <= in_height p <= 131076 /\
   in_layout p = "NCHW"%string).
Proof.
  intros Hw Hd Ha Hf. split.
  - apply IsCorrect_true_shape.
  - apply shape_IsCorrect; try assumption.
    unfold device_is_gfx8_9_no_xnack.
    simpl in Hd. decompose [or] Hd; try contradiction; subst;
      match goal with H : _ = device_name p |- _ => rewrite <- H end; reflexivity.
Qed.

Lemma IsCorrect_true_iff_witness :
  IsCorrect false params_small = Ret true <->
  0 <= 0 <= 5 /\ 0 <= 0 <= 5 /\ 2 = 2 /\ 2 = 2 /\ 10 = 10 /\ 5 = 5 /\
  1 <= 3 /\ 1 <= 32 /\ (16 | 32) /\
  10 - 2 * 0 <= 14 <= 8191 /\ 5 - 2 * 0 <= 23 <= 131076 /\
  "NCHW"%string = "NCHW"%string.
Proof.
  apply (IsCorrect_true_iff false params_small).
  - reflexivity.
  - simpl. tauto.
  - reflexivity.
  - reflexivity.
Defined.

(** C1.  As amended: for a non-default (non-empty) weights layout, in
    every build [IsCorrect] returns false when the assembler is missing, the
    device is not whitelisted or the direction is not forward; when these
    earlier prerequisites hold, a build with assertions enabled does not
    return false: the call stops on the failed assertion
    [weights_layout.length() == 0]. *)
Theorem IsCorrect_weights_layout_given
    (NDEBUG : bool) (p : ImplementationSearchParameters) :
  weights_layout p <> ""%string ->
  (assembler_available p = false \/
   device_is_gfx8_9_no_xnack (device_name p) = false \/
   forward p = false ->
   IsCorrect NDEBUG p = Ret false) /\
  (assembler_available p = true ->
   device_is_gfx8_9_no_xnack (device_name p) = true ->
   forward p = true ->
   IsCorrect false p = AssertFail).
Proof.
  intro Hw. unfold IsCorrect. split.
  - intros [H | [H | H]].
    + now rewrite H.
    + rewrite H. now destruct (assembler_available p).
    + rewrite H. destruct (assembler_available p); [|reflexivity].
      now destruct (device_is_gfx8_9_no_xnack (device_name p)).
  - intros Ha Hd Hf. rewrite Ha, Hd, Hf. cbn [negb].
    destruct (weights_layout p) as [|a w]; [contradiction | reflexivity].
Qed.

(** C1, at the KCHW problem: forward stops on the assertion, backward
    returns false, also without assertions. *)
Lemma IsCorrect_weights_layout_given_witness :
  IsCorrect true params_kchw_backward = Ret false /\
  IsCorrect false params_kchw = AssertFail.
Proof.
  split.
  - apply (IsCorrect_weights_layout_given true params_kchw_backward).
    + discriminate.
    + right. right. reflexivity.
  - apply (IsCorrect_weights_layout_given false params_kchw);
      [discriminate | reflexivity | reflexivity | reflexivity].
Defined.

(** C1, counterexample: a forward problem on gfx900 with the assembler
    available and weights layout KCHW.  With assertions enabled the call
    stops on the assertion; with [NDEBUG] it returns true.  It returns false
    in neither build. *)
Lemma IsCorrect_weights_layout_counterexample :
  weights_layout params_kchw = "KCHW"%string /\
  assembler_available params_kchw = true /\
  device_is_gfx8_9_no_xnack (device_name params_kchw) = true /\
  forward params_kchw = true /\
  IsCorrect false params_kchw = AssertFail /\
  IsCorrect true params_kchw = Ret true.
Proof. repeat split. Qed.

(** ** AlignUp *)

(** C8.  As amended: for every value >= 0 and every step > 0 such that
    ceil(value / step) * step is at most INT_MAX = 2^31 - 1, [AlignUp]
    returns ceil(value / step) * step, the least multiple of step that is
    >= value; AlignUp(3,64) = 64, AlignUp(130,4) = 132, AlignUp(0,8) = 0.
    With assertions enabled, a step of 0 stops the call on the assertion. *)
Theorem AlignUp_least_multiple :
  (forall (NDEBUG : bool) (val step : Z),
      0 <= val <= INT_MAX -> 0 < step < UINT_MOD ->
      ceil_div val step * step <= INT_MAX ->
      AlignUp NDEBUG val step = Ret (ceil_div val step * step) /\
      (step | ceil_div val step * step) /\
      val <= ceil_div val step * step /\
      (forall m, (step | m) -> val <= m -> ceil_div val step * step <= m)) /\
  (forall NDEBUG : bool,
      AlignUp NDEBUG 3 64 = Ret 64 /\
      AlignUp NDEBUG 130 4 = Ret 132 /\
      AlignUp NDEBUG 0 8 = Ret 0) /\
  (forall val : Z, AlignUp false val 0 = AssertFail).
Proof.
  split; [|split].
  - intros NDEBUG val step Hv Hs Hm. repeat split.
    + now apply AlignUp_align_up.
    + apply align_up_multiple.
    + apply align_up_ge. lia.
    + intros m Hd Hle. apply align_up_least; [lia | assumption | assumption].
  - intros [|]; repeat split.
  - intro val. reflexivity.
Qed.

Lemma AlignUp_least_multiple_witness :
  AlignUp false 130 4 = Ret 132 /\ (4 | 132) /\ 130 <= 132.
Proof.
  destruct (proj1 AlignUp_least_multiple false 130 4) as (H1 & H2 & H3 & _).
  - limits. lia.
  - limits. lia.
  - vm_compute. discriminate.
  - exact (conj H1 (conj H2 H3)).
Defined.

(** C8, counterexample: value INT_MAX and step 64.  The least multiple of 64
    that is >= 2147483647 is 2147483648, which no [int] holds; the function
    returns INT_MIN. *)
Lemma AlignUp_counterexample :
  0 <= 2147483647 /\ 0 < 64 /\
  ceil_div 2147483647 64 * 64 = 2147483648 /\
  AlignUp false 2147483647 64 = Ret (-2147483648) /\
  AlignUp true 2147483647 64 = Ret (-2147483648).
Proof. repeat split; try lia. Qed.

(** ** The output sizes of ConvAsm5x10u2v2f1 *)

Lemma out_w_shape p :
  shape_ok p ->
  out_w p = Ret (out_size (in_width p) (pad0 p) (kernel_size0 p) (kernel_stride0 p)) /\
  1 <= out_size (in_width p) (pad0 p) (kernel_size0 p) (kernel_stride0 p) <= 4096.
Proof.
  intros (Hp0 & Hp1 & Hs0 & Hs1 & Hk0 & Hk1 & Hc & Hn & Hn16 & Hiw & Hih & Hl).
  unfold out_w, out_size, int_mul, int_add, int_sub, int_div.
  rewrite Hs0, Hk0 in *.
  rewrite (int_of_in (pad0 p * 2)) by (limits; lia). cbn [bind].
  rewrite (int_of_in (in_width p + pad0 p * 2)) by (limits; lia). cbn [bind].
  rewrite (int_of_in (in_width p + pad0 p * 2 + 2)) by (limits; lia). cbn [bind].
  rewrite (int_of_in (in_width p + pad0 p * 2 + 2 - 10)) by (limits; lia). cbn [bind].
  change (2 =? 0) with false. cbv iota.
  rewrite Z.quot_div_nonneg by lia.
  replace (in_width p + pad0 p * 2 + 2 - 10) with (in_width p + 2 * pad0 p - (10 - 2)) by lia.
  pose proof (Z.div_mod (in_width p + 2 * pad0 p - (10 - 2)) 2 ltac:(lia)).
  pose proof (Z.mod_pos_bound (in_width p + 2 * pad0 p - (10 - 2)) 2 ltac:(lia)).
  split; [apply int_of_in; limits; lia | lia].
Qed.

Lemma out_h_shape p :
  shape_ok p ->
  out_h p = Ret (out_size (in_height p) (pad1 p) (kernel_size1 p) (kernel_stride1 p)) /\
  1 <= out_size (in_height p) (pad1 p) (kernel_size1 p) (kernel_stride1 p) <= 65541.
Proof.
  intros (Hp0 & Hp1 & Hs0 & Hs1 & Hk0 & Hk1 & Hc & Hn & Hn16 & Hiw & Hih & Hl).
  unfold out_h, out_size, int_mul, int_add, int_sub, int_div.
  rewrite Hs1, Hk1 in *.
  rewrite (int_of_in (pad1 p * 2)) by (limits; lia). cbn [bind].
  rewrite (int_of_in (in_height p + pad1 p * 2)) by (limits; lia). cbn [bind].
  rewrite (int_of_in (in_height p + pad1 p * 2 + 2)) by (limits; lia). cbn [bind].
  rewrite (int_of_in (in_height p + pad1 p * 2 + 2 - 5)) by (limits; lia). cbn [bind].
  change (2 =? 0) with false. cbv iota.
  rewrite Z.quot_div_nonneg by lia.
  replace (in_height p + pad1 p * 2 + 2 - 5) with (in_height p + 2 * pad1 p - (5 - 2)) by lia.
  pose proof (Z.div_mod (in_height p + 2 * pad1 p - (5 - 2)) 2 ltac:(lia)).
  pose proof (Z.mod_pos_bound (in_height p + 2 * pad1 p - (5 - 2)) 2 ltac:(lia)).
  split; [apply int_of_in; limits; lia | lia].
Qed.

Lemma int_div_Ret a b q : int_div a b = Ret q -> q = a ÷ b /\ b <> 0.
Proof.
  unfold int_div. destruct (Z.eqb_spec b 0) as [E | N]; [discriminate|].
  intro H. apply int_of_Ret in H as [-> _]. now split.
Qed.

Lemma out_w_Ret p w :
  out_w p = Ret w ->
  w = (in_width p + 2 * pad0 p - (kernel_size0 p - kernel_stride0 p))
      ÷ kernel_stride0 p.
Proof.
  unfold out_w, int_mul, int_add, int_sub. intro H.
  apply bind_Ret in H as (p2 & H1 & H). apply bind_Ret in H as (a & H2 & H).
  apply bind_Ret in H as (b & H3 & H). apply bind_Ret in H as (c & H4 & H).
  apply int_of_Ret in H1 as [-> _], H2 as [-> _], H3 as [-> _], H4 as [-> _].
  apply int_div_Ret in H as [-> _]. f_equal. lia.
Qed.

Lemma out_h_Ret p h :
  out_h p = Ret h ->
  h = (in_height p + 2 * pad1 p - (kernel_size1 p - kernel_stride1 p))
      ÷ kernel_stride1 p.
Proof.
  unfold out_h, int_mul, int_add, int_sub. intro H.
  apply bind_Ret in H as (p2 & H1 & H). apply bind_Ret in H as (a & H2 & H).
  apply bind_Ret in H as (b & H3 & H). apply bind_Ret in H as (c & H4 & H).
  apply int_of_Ret in H1 as [-> _], H2 as [-> _], H3 as [-> _], H4 as [-> _].
  apply int_div_Ret in H as [-> _]. f_equal. lia.
Qed.

(** C7.  As amended: whenever [PrepareForUsage] returns, the output sizes
    it computes, and aligns into the global work size of its result, are
    (in + 2*pad - (kernel - stride)) / stride with the division of C++
    [int]s, which truncates towards zero, along each axis with that axis's
    input size, padding, kernel size and stride.  On every problem on which
    [IsCorrect] returned true the two sizes are defined and the division is
    the floor division. *)
Theorem out_sizes_formula :
  (forall (NDEBUG : bool) (GenerateClangDefsym : string -> string -> Z -> string)
          (p : ImplementationSearchParameters) (r : ImplementationUsageDescription),
      PrepareForUsage NDEBUG GenerateClangDefsym p = Ret r ->
      exists k g0 a1 a2,
        out_w p =
          Ret ((in_width p + 2 * pad0 p - (kernel_size0 p - kernel_stride0 p))
               ÷ kernel_stride0 p) /\
        out_h p =
          Ret ((in_height p + 2 * pad1 p - (kernel_size1 p - kernel_stride1 p))
               ÷ kernel_stride1 p) /\
        AlignUp NDEBUG
          ((in_width p + 2 * pad0 p - (kernel_size0 p - kernel_stride0 p))
           ÷ kernel_stride0 p) 64 = Ret g0 /\
        AlignUp NDEBUG
          ((in_height p + 2 * pad1 p - (kernel_size1 p - kernel_stride1 p))
           ÷ kernel_stride1 p) 4 = Ret a1 /\
        AlignUp NDEBUG (n_outputs p ÷ 2) 8 = Ret a2 /\
        construction_params r = [k] /\
        g_wk k = [to_size_t g0; to_size_t (a1 ÷ 4 * a2); to_size_t (batch_sz p)]) /\
  (forall (NDEBUG : bool) (p : ImplementationSearchParameters),
      IsCorrect NDEBUG p = Ret true ->
      out_w p =
        Ret ((in_width p + 2 * pad0 p - (kernel_size0 p - kernel_stride0 p))
             / kernel_stride0 p) /\
      out_h p =
        Ret ((in_height p + 2 * pad1 p - (kernel_size1 p - kernel_stride1 p))
             / kernel_stride1 p) /\
      (in_width p + 2 * pad0 p - (kernel_size0 p - kernel_stride0 p)) ÷ kernel_stride0 p
      = (in_width p + 2 * pad0 p - (kernel_size0 p - kernel_stride0 p)) / kernel_stride0 p /\
      (in_height p + 2 * pad1 p - (kernel_size1 p - kernel_stride1 p)) ÷ kernel_stride1 p
      = (in_height p + 2 * pad1 p - (kernel_size1 p - kernel_stride1 p)) / kernel_stride1 p).
Proof.
  split.
  - intros NDEBUG G p r H. unfold PrepareForUsage in H.
    apply bind_Ret in H as (ow & Hw & H). apply bind_Ret in H as (oh & Hh & H).
    cbv zeta in H.
    apply bind_Ret in H as (g0 & Hg0 & H). apply bind_Ret in H as (a1 & Ha1 & H).
    apply bind_Ret in H as (q1 & Hq1 & H). apply bind_Ret in H as (k2 & Hk2 & H).
    apply bind_Ret in H as (a2 & Ha2 & H). apply bind_Ret in H as (g1 & Hg1 & H).
    injection H as <-.
    pose proof (out_w_Ret p ow Hw) as Ew. pose proof (out_h_Ret p oh Hh) as Eh.
    apply int_div_Ret in Hq1 as [-> _], Hk2 as [-> _].
    apply int_of_Ret in Hg1 as [-> _]. subst ow oh.
    eexists. exists g0, a1, a2. cbn [construction_params app].
    split; [assumption|]. split; [assumption|]. split; [assumption|].
    split; [assumption|]. split; [assumption|]. split; reflexivity.
  - intros NDEBUG p H. apply IsCorrect_true_shape in H.
    destruct (out_w_shape p H) as [Ew Bw], (out_h_shape p H) as [Eh Bh].
    split; [exact Ew|]. split; [exact Eh|].
    destruct H as (Hp0 & Hp1 & Hs0 & Hs1 & Hk0 & Hk1 & _ & _ & _ & Hiw & Hih & _).
    rewrite Hs0, Hs1, Hk0, Hk1 in *.
    split; apply Z.quot_div_nonneg; lia.
Qed.

(** C7, at in_width = 14, pad = 0, stride = 2, kernel = 10: out_w = 3. *)
Lemma out_sizes_formula_witness :
  (exists k g0 a1 a2,
      out_w params_small = Ret 3 /\ out_h params_small = Ret 10 /\
      AlignUp false 3 64 = Ret g0 /\ AlignUp false 10 4 = Ret a1 /\
      AlignUp false 16 8 = Ret a2 /\
      construction_params usage_small = [k] /\
      g_wk k = [to_size_t g0; to_size_t (a1 ÷ 4 * a2); to_size_t 8]) /\
  (out_w params_small = Ret ((14 + 2 * 0 - (10 - 2)) / 2) /\
   out_h params_small = Ret ((23 + 2 * 0 - (5 - 2)) / 2) /\
   (14 + 2 * 0 - (10 - 2)) ÷ 2 = (14 + 2 * 0 - (10 - 2)) / 2 /\
   (23 + 2 * 0 - (5 - 2)) ÷ 2 = (23 + 2 * 0 - (5 - 2)) / 2).
Proof.
  split.
  - apply (proj1 out_sizes_formula false defsym_text params_small usage_small).
    reflexivity.
  - apply (proj2 out_sizes_formula false params_small). reflexivity.
Defined.

(** C7, counterexample: in_width = 5, pad = 0, stride = 2, kernel = 10.
    The numerator is -3; the [int] division gives out_w = -1, the floor
    division -2.  [PrepareForUsage] returns on this problem. *)
Lemma out_sizes_formula_counterexample :
  in_width params_narrow = 5 /\ pad0 params_narrow = 0 /\
  kernel_stride0 params_narrow = 2 /\ kernel_size0 params_narrow = 10 /\
  out_w params_narrow = Ret (-1) /\
  (5 + 2 * 0 - (10 - 2)) / 2 = -2 /\
  exists r,
    PrepareForUsage false defsym_text params_narrow = Ret r /\
    map g_wk (construction_params r) = [[0; 48; 8]].
Proof.
  do 6 (split; [reflexivity|]). eexists. split; reflexivity.
Qed.

(** ** The launch geometry of ConvAsm5x10u2v2f1 *)

Lemma align_up_lt v s : 0 < s -> align_up v s < v + s.
Proof.
  intro Hs. unfold align_up, ceil_div.
  pose proof (Z.div_mod (- v) s ltac:(lia)) as H1.
  pose proof (Z.mod_pos_bound (- v) s Hs) as H2.
  nia.
Qed.

Lemma to_size_t_small z : 0 <= z < SIZE_MOD -> to_size_t z = z.
Proof. intro H. unfold to_size_t. now apply Z.mod_small. Qed.

(** What [PrepareForUsage] returns for an applicable problem, as long as the
    second global work size is an [int] and the batch size is not negative. *)
Lemma PrepareForUsage_applicable NDEBUG GenerateClangDefsym p :
  shape_ok p ->
  0 <= batch_sz p <= INT_MAX ->
  dim1 p <= INT_MAX ->
  exists options,
    PrepareForUsage NDEBUG GenerateClangDefsym p =
    Ret {| construction_params :=
             [ {| comp_options := options;
                  l_wk := [64; 8; 1];
                  g_wk := [ align_up (out_size (in_width p) (pad0 p) (kernel_size0 p)
                                               (kernel_stride0 p)) 64;
                            dim1 p;
                            batch_sz p ];
                  kernel_file := "conv5x10u2v2f1.s";
                  kernel_name := "conv5x10u2v2f1" |} ] |}.
Proof.
  intros Hshape Hb Hd1.
  destruct (out_w_shape p Hshape) as [Eow Bow].
  destruct (out_h_shape p Hshape) as [Eoh Boh].
  destruct Hshape as (_ & _ & _ & _ & _ & _ & _ & Hn & Hn16 & _).
  unfold dim1 in *.
  set (ow := out_size (in_width p) (pad0 p) (kernel_size0 p) (kernel_stride0 p)) in *.
  set (oh := out_size (in_height p) (pad1 p) (kernel_size1 p) (kernel_stride1 p)) in *.
  pose proof (align_up_lt ow 64 ltac:(lia)) as Lw.
  pose proof (align_up_ge ow 64 ltac:(lia)) as Gw.
  pose proof (align_up_lt oh 4 ltac:(lia)) as Lh.
  pose proof (align_up_ge oh 4 ltac:(lia)) as Gh.
  pose proof (align_up_lt (n_outputs p / 2) 8 ltac:(lia)) as Lk.
  pose proof (align_up_ge (n_outputs p / 2) 8 ltac:(lia)) as Gk.
  assert (Hk2 : 8 <= n_outputs p / 2).
  { destruct Hn16 as [q Hq]. rewrite Hq.
    replace (q * 16) with (q * 8 * 2) by lia. rewrite Z.div_mul by lia. lia. }
  assert (Hq1 : 0 <= align_up oh 4 / 4 <= 16386).
  { split; [apply Z.div_pos; lia|]. apply Z.div_le_upper_bound; lia. }
  eexists. unfold PrepareForUsage.
  rewrite Eow, Eoh. cbn [bind].
  rewrite (AlignUp_align_up NDEBUG ow 64) by (limits; lia). cbn [bind].
  rewrite (AlignUp_align_up NDEBUG oh 4) by (limits; lia). cbn [bind].
  unfold int_div. change (4 =? 0) with false. change (2 =? 0) with false. cbv iota.
  rewrite (Z.quot_div_nonneg (align_up oh 4) 4) by lia.
  rewrite (int_of_in (align_up oh 4 / 4)) by (limits; lia). cbn [bind].
  assert (Hq1' : 1 <= align_up oh 4 / 4).
  { destruct (align_up_multiple oh 4) as [q Hq]. rewrite Hq in *.
    rewrite Z.div_mul by lia. lia. }
  assert (Ha2 : align_up (n_outputs p / 2) 8 <= INT_MAX) by nia.
  rewrite (Z.quot_div_nonneg (n_outputs p) 2) by lia.
  rewrite (int_of_in (n_outputs p / 2)) by (limits; lia). cbn [bind].
  rewrite (AlignUp_align_up NDEBUG (n_outputs p / 2) 8) by (limits; lia). cbn [bind].
  unfold int_mul.
  rewrite (int_of_in (align_up oh 4 / 4 * align_up (n_outputs p / 2) 8))
    by (limits; nia).
  cbn [bind app].
  rewrite (to_size_t_small (align_up ow 64)) by (limits; lia).
  rewrite (to_size_t_small (align_up oh 4 / 4 * align_up (n_outputs p / 2) 8))
    by (limits; nia).
  rewrite (to_size_t_small (batch_sz p)) by (limits; lia).
  reflexivity.
Qed.

(** C6.  As amended: for every problem the solver is applicable to, whose
    batch size is not negative and for which
    AlignUp(out_h, 4)/4 * AlignUp(output_channels/2, 8) is at most
    INT_MAX = 2^31 - 1, [PrepareForUsage] produces the local work size
    (64, 8, 1) and the global work size
    (AlignUp(out_w, 64), AlignUp(out_h, 4)/4 * AlignUp(output_channels/2, 8),
    batch size). *)
Theorem PrepareForUsage_work_sizes
    (NDEBUG : bool) (GenerateClangDefsym : string -> string -> Z -> string)
    (p : ImplementationSearchParameters) :
  IsCorrect NDEBUG p = Ret true ->
  0 <= batch_sz p <= INT_MAX ->
  align_up (out_size (in_height p) (pad1 p) (kernel_size1 p) (kernel_stride1 p)) 4 / 4
  * align_up (n_outputs p / 2) 8 <= INT_MAX ->
  exists k,
    PrepareForUsage NDEBUG GenerateClangDefsym p = Ret {| construction_params := [k] |} /\
    l_wk k = [64; 8; 1] /\
    g_wk k =
      [ align_up (out_size (in_width p) (pad0 p) (kernel_size0 p) (kernel_stride0 p)) 64;
        align_up (out_size (in_height p) (pad1 p) (kernel_size1 p) (kernel_stride1 p)) 4 / 4
        * align_up (n_outputs p / 2) 8;
        batch_sz p ].
Proof.
  intros Hc Hb Hd. apply IsCorrect_true_shape in Hc.
  destruct (PrepareForUsage_applicable NDEBUG GenerateClangDefsym p Hc Hb Hd)
    as [options E].
  eexists. split; [exact E|]. split; reflexivity.
Qed.

(** C6, at out_h = 10 and 32 output channels: the second global work size
    is 48. *)
Lemma PrepareForUsage_work_sizes_witness :
  out_h params_small = Ret 10 /\ n_outputs params_small = 32 /\
  exists k,
    PrepareForUsage false defsym_text params_small
      = Ret {| construction_params := [k] |} /\
    l_wk k = [64; 8; 1] /\ g_wk k = [64; 48; 8].
Proof.
  split; [reflexivity|]. split; [reflexivity|].
  apply (PrepareForUsage_work_sizes false defsym_text params_small).
  - reflexivity.
  - limits. simpl. lia.
  - vm_compute. discriminate.
Defined.

(** C6, counterexample: an applicable problem with 2147483632 output
    channels and input height 131076.  The two factors of the second global
    work size are 16384 and 1073741816; their product is not an [int], and
    the signed multiplication is undefined. *)
Lemma PrepareForUsage_work_sizes_counterexample :
  IsCorrect false params_wide = Ret true /\
  IsCorrect true params_wide = Ret true /\
  out_h params_wide = Ret 65536 /\
  AlignUp false 65536 4 = Ret 65536 /\
  AlignUp false (2147483632 / 2) 8 = Ret 1073741816 /\
  int_mul (65536 / 4) 1073741816 = Undefined /\
  PrepareForUsage false defsym_text params_wide = Undefined /\
  PrepareForUsage true defsym_text params_wide = Undefined.
Proof. repeat split. Qed.

(** Whenever [PrepareForUsage] returns, it returns one kernel whose local
    work size is (64, 8, 1) and whose global work size has three entries. *)
Lemma PrepareForUsage_Ret_vectors NDEBUG GenerateClangDefsym p r :
  PrepareForUsage NDEBUG GenerateClangDefsym p = Ret r ->
  exists k a b c,
    construction_params r = [k] /\ l_wk k = [64; 8; 1] /\ g_wk k = [a; b; c].
Proof.
  unfold PrepareForUsage. intro H.
  apply bind_Ret in H as (ow & _ & H).
  apply bind_Ret in H as (oh & _ & H).
  apply bind_Ret in H as (g0 & _ & H).
  apply bind_Ret in H as (a1 & _ & H).
  apply bind_Ret in H as (q1 & _ & H).
  apply bind_Ret in H as (k2 & _ & H).
  apply bind_Ret in H as (a2 & _ & H).
  apply bind_Ret in H as (g1 & _ & H).
  injection H as <-.
  do 4 eexists. cbn [construction_params app]. split; [reflexivity|].
  split; reflexivity.
Qed.

(** ** The implicit-GEMM solver *)

Section ImplicitGemm.
Import solver.

Variable IsXdlopsSupport : ConvolutionContext -> bool.
Variable GetEPackLength : ConvolutionContext -> bool -> Z.

Lemma size_mul_mod a b :
  size_mul (a mod SIZE_MOD) (b mod SIZE_MOD) = (a * b) mod SIZE_MOD.
Proof. unfold size_mul. symmetry. apply Z.mul_mod. discriminate. Qed.

(** A product of three converted values is the product modulo 2^64. *)
Lemma size_mul3 a b c :
  size_mul (size_mul (to_size_t a) (to_size_t b)) (to_size_t c)
  = (a * b * c) mod SIZE_MOD.
Proof. unfold to_size_t. now rewrite !size_mul_mod. Qed.

Lemma mod_size_mod_128 a : (a mod SIZE_MOD) mod 128 = a mod 128.
Proof.
  change SIZE_MOD with (128 * 144115188075855872).
  rewrite Z.rem_mul_r by lia.
  rewrite (Z.mul_comm 128 (_ mod _)), Z.mod_add by lia. apply Z.mod_mod. lia.
Qed.

Lemma size_mul3_mod_128 a b c :
  size_mul (size_mul (to_size_t a) (to_size_t b)) (to_size_t c) mod 128 = 0
  <-> (128 | a * b * c).
Proof.
  rewrite size_mul3, mod_size_mod_128. apply Z.mod_divide. lia.
Qed.

(** C3.  As amended: [GetWorkspaceSize] returns 0 when the datatype is fp32;
    when it is fp16 or bfp16 it returns N * C * Hi * Wi * 4 computed in
    [std::size_t], that is reduced modulo 2^64, which is
    N * C * Hi * Wi * sizeof(fp32) whenever that product is non-negative
    and below 2^64. *)
Theorem GetWorkspaceSize_value (ctx : ConvolutionContext) :
  (data_type ctx = miopenFloat -> GetWorkspaceSize ctx = 0) /\
  (data_type ctx = miopenHalf \/ data_type ctx = miopenBFloat16 ->
   GetWorkspaceSize ctx
   = (GetBatchN ctx * GetInputChannelC ctx * GetInputHeightHi ctx
      * GetInputWidthWi ctx * GetTypeSize miopenFloat) mod SIZE_MOD /\
   (0 <= GetBatchN ctx * GetInputChannelC ctx * GetInputHeightHi ctx
         * GetInputWidthWi ctx * 4 < SIZE_MOD ->
    GetWorkspaceSize ctx
    = GetBatchN ctx * GetInputChannelC ctx * GetInputHeightHi ctx
      * GetInputWidthWi ctx * 4)).
Proof.
  unfold GetWorkspaceSize, IsFp32. split.
  - intros ->. reflexivity.
  - intro Ht.
    assert (E : (if match data_type ctx with miopenFloat => true | _ => false end
                 then 0
                 else size_mul (size_mul (size_mul (size_mul
                        (to_size_t (GetBatchN ctx)) (to_size_t (GetInputChannelC ctx)))
                        (to_size_t (GetInputHeightHi ctx))) (to_size_t (GetInputWidthWi ctx)))
                        (to_size_t (GetTypeSize miopenFloat)))
                = (GetBatchN ctx * GetInputChannelC ctx * GetInputHeightHi ctx
                   * GetInputWidthWi ctx * GetTypeSize miopenFloat) mod SIZE_MOD).
    { unfold to_size_t. rewrite !size_mul_mod. now destruct Ht as [-> | ->]. }
    split; [exact E|].
    intro Hb. rewrite E. apply Z.mod_small. exact Hb.
Qed.

(** C3, at fp16 and fp32 with N = 8, C = 3, Hi = Wi = 224. *)
Lemma GetWorkspaceSize_value_witness :
  GetWorkspaceSize ctx_fp16 = 8 * 3 * 224 * 224 * 4 /\
  GetWorkspaceSize ctx_fp32 = 0.
Proof.
  split.
  - apply (proj2 (GetWorkspaceSize_value ctx_fp16)).
    + left. reflexivity.
    + vm_compute. split; [discriminate | reflexivity].
  - apply (proj1 (GetWorkspaceSize_value ctx_fp32)). reflexivity.
Defined.

(** C3, counterexample: fp16 with N = C = Hi = Wi = 65536.  The product
    N * C * Hi * Wi is 2^64, which wraps to 0 in [std::size_t]. *)
Lemma GetWorkspaceSize_counterexample :
  data_type ctx_huge = miopenHalf /\
  GetBatchN ctx_huge * GetInputChannelC ctx_huge * GetInputHeightHi ctx_huge
    * GetInputWidthWi ctx_huge * 4 = 73786976294838206464 /\
  GetWorkspaceSize ctx_huge = 0.
Proof. repeat split. Qed.

(** *** Applicability *)

Lemma quot_range c g : 0 < g -> INT_MIN <= c <= INT_MAX -> INT_MIN <= c ÷ g <= INT_MAX.
Proof.
  intros Hg Hc.
  destruct (Z.le_gt_cases 0 c) as [H0 | H0].
  - rewrite Z.quot_div_nonneg by lia.
    pose proof (Z.div_pos c g H0 Hg).
    assert (c / g <= c) by (apply Z.div_le_upper_bound; nia).
    limits. lia.
  - replace c with (- (- c)) by lia. rewrite Z.quot_opp_l by lia.
    rewrite Z.quot_div_nonneg by lia.
    pose proof (Z.div_pos (- c) g ltac:(lia) Hg).
    assert (- c / g <= - c) by (apply Z.div_le_upper_bound; nia).
    limits. lia.
Qed.

Lemma quot_nonneg_range k g :
  0 < g -> 0 <= k <= INT_MAX -> 0 <= k ÷ g <= INT_MAX.
Proof.
  intros Hg Hk. rewrite Z.quot_div_nonneg by lia.
  pose proof (Z.div_pos k g ltac:(lia) Hg).
  assert (k / g <= k) by (apply Z.div_le_upper_bound; nia). lia.
Qed.

(** The value of [IsApplicable] on a context with a positive group count, a
    non-negative K and a positive element-pack length. *)
Lemma IsApplicable_value ctx :
  0 < group_counts ctx ->
  0 <= GetOutputChannelK ctx <= INT_MAX ->
  INT_MIN <= GetInputChannelC ctx <= INT_MAX ->
  0 < GetEPackLength ctx true <= INT_MAX ->
  IsApplicable IsXdlopsSupport GetEPackLength ctx =
  Ret (IsBackwardData (direction ctx) &&
       (Is2d ctx &&
        ((IsFp32 ctx || IsFp16 ctx || IsBfp16 ctx) &&
         (((GetOutputChannelK ctx ÷ group_counts ctx) mod GetEPackLength ctx true =? 0) &&
          (IsXdlopsSupport ctx
           && ((GetBatchN ctx * GetOutputHeightHo ctx * GetOutputWidthWo ctx) mod 128 =? 0)
           && (((GetInputChannelC ctx ÷ group_counts ctx) * GetFilterHeightY ctx
                * GetFilterWidthX ctx) mod 128 =? 0)
           && (((GetOutputChannelK ctx ÷ group_counts ctx) / GetEPackLength ctx true)
                 mod 16 =? 0)))))).
Proof.
  intros Hg Hk Hc He. unfold IsApplicable.
  destruct (IsBackwardData (direction ctx)); [|reflexivity].
  destruct (Is2d ctx); [|reflexivity].
  destruct (IsFp32 ctx || IsFp16 ctx || IsBfp16 ctx); [|reflexivity].
  cbn [negb andb]. unfold int_div.
  destruct (Z.eqb_spec (group_counts ctx) 0) as [E | _]; [lia|].
  pose proof (quot_nonneg_range _ _ Hg Hk) as Hkq.
  rewrite (int_of_in (GetOutputChannelK ctx ÷ group_counts ctx)) by (limits; lia).
  rewrite (int_of_in (GetInputChannelC ctx ÷ group_counts ctx))
    by (apply quot_range; assumption).
  cbn [bind].
  rewrite (to_size_t_small (GetOutputChannelK ctx ÷ group_counts ctx)) by (limits; lia).
  rewrite (to_size_t_small (GetEPackLength ctx true)) by (limits; lia).
  unfold size_rem, size_div.
  destruct (Z.eqb_spec (GetEPackLength ctx true) 0) as [E | _]; [lia|].
  cbn [bind].
  destruct ((GetOutputChannelK ctx ÷ group_counts ctx) mod GetEPackLength ctx true =? 0);
    [|reflexivity].
  cbn [negb andb bind].
  rewrite !size_mul3, !mod_size_mod_128. reflexivity.
Qed.

(** What a true answer of [IsApplicable] says about the tile divisibility. *)
Lemma IsApplicable_true_divides ctx :
  IsApplicable IsXdlopsSupport GetEPackLength ctx = Ret true ->
  group_counts ctx <> 0 /\
  (128 | GetBatchN ctx * GetOutputHeightHo ctx * GetOutputWidthWo ctx) /\
  (128 | (GetInputChannelC ctx ÷ group_counts ctx) * GetFilterHeightY ctx
         * GetFilterWidthX ctx).
Proof.
  unfold IsApplicable.
  destruct (negb (IsBackwardData (direction ctx))); [discriminate|].
  destruct (negb (Is2d ctx)); [discriminate|].
  destruct (negb (IsFp32 ctx || IsFp16 ctx || IsBfp16 ctx)); [discriminate|].
  intro H.
  apply bind_Ret in H as (k' & Hk & H).
  apply bind_Ret in H as (c' & Hc & H).
  apply bind_Ret in H as (r & Hr & H).
  destruct (negb (r =? 0)); [discriminate|].
  apply bind_Ret in H as (nv & Hnv & H).
  injection H as H.
  unfold int_div in Hc.
  destruct (Z.eqb_spec (group_counts ctx) 0) as [E | Hg]; [discriminate|].
  apply int_of_Ret in Hc as [-> _].
  apply andb_true_iff in H as [H _].
  apply andb_true_iff in H as [H Hm].
  apply andb_true_iff in H as [_ Hn].
  apply Z.eqb_eq in Hm, Hn.
  apply size_mul3_mod_128 in Hm, Hn.
  auto.
Qed.

(** C2.  As amended: on a context with a positive group count, a
    non-negative number of output channels (an [int]), an [int] number of
    input channels and a positive element-pack length, [IsApplicable]
    returns true exactly when the direction is BackwardData, the problem is
    2D, the datatype is fp32, fp16 or bfp16, xdlops is supported, and with
    k = K / group_counts and c = C / group_counts: the element-pack length
    divides k, 16 divides k / element-pack length, 128 divides N * Ho * Wo and
    128 divides c * Y * X; otherwise it returns false. *)
Theorem IsApplicable_true_iff (ctx : ConvolutionContext) :
  0 < group_counts ctx ->
  0 <= GetOutputChannelK ctx <= INT_MAX ->
  INT_MIN <= GetInputChannelC ctx <= INT_MAX ->
  0 < GetEPackLength ctx true <= INT_MAX ->
  exists b : bool,
    IsApplicable IsXdlopsSupport GetEPackLength ctx = Ret b /\
    (b = true <->
     direction ctx = BackwardData /\
     spatial_dims ctx = 2 /\
     (data_type ctx = miopenFloat \/ data_type ctx = miopenHalf \/
      data_type ctx = miopenBFloat16) /\
     IsXdlopsSupport ctx = true /\
     (GetEPackLength ctx true | GetOutputChannelK ctx ÷ group_counts ctx) /\
     (16 | (GetOutputChannelK ctx ÷ group_counts ctx) / GetEPackLength ctx true) /\
     (128 | GetBatchN ctx * GetOutputHeightHo ctx * GetOutputWidthWo ctx) /\
     (128 | (GetInputChannelC ctx ÷ group_counts ctx) * GetFilterHeightY ctx
            * GetFilterWidthX ctx)).
Proof.
  intros Hg Hk Hc He.
  eexists. split; [apply IsApplicable_value; assumption|].
  rewrite !andb_true_iff, !Z.eqb_eq.
  rewrite !(Z.mod_divide _ _) by lia.
  assert (Hd : IsBackwardData (direction ctx) = true <-> direction ctx = BackwardData).
  { destruct (direction ctx); simpl; split; congruence. }
  assert (H2 : Is2d ctx = true <-> spatial_dims ctx = 2) by apply Z.eqb_eq.
  assert (Ht : IsFp32 ctx || IsFp16 ctx || IsBfp16 ctx = true <->
               data_type ctx = miopenFloat \/ data_type ctx = miopenHalf \/
               data_type ctx = miopenBFloat16).
  { unfold IsFp32, IsFp16, IsBfp16.
    destruct (data_type ctx); simpl; split; intro H;
      try discriminate; try tauto;
      decompose [or] H; discriminate. }
  rewrite Hd, H2, Ht. tauto.
Qed.

(** *** Launch configuration *)

Variable use_amd_inline_asm : ConvolutionContext -> bool.
Variable support_amd_buffer_atomic_add : ConvolutionContext -> bool.
Variable MIOPEN_DEBUG_IMPLICIT_GEMM_XDLOPS_INLINE_ASM : bool.
Variable MIOPEN_DEBUG_CONV_IMPLICIT_GEMM_XDLOPS_EMULATE : bool.

Local Abbreviation GetSolution' :=
  (GetSolution IsXdlopsSupport GetEPackLength use_amd_inline_asm
     support_amd_buffer_atomic_add MIOPEN_DEBUG_IMPLICIT_GEMM_XDLOPS_INLINE_ASM
     MIOPEN_DEBUG_CONV_IMPLICIT_GEMM_XDLOPS_EMULATE).

(** [GetSolution] returns one kernel; its work sizes in [std::size_t]
    arithmetic. *)
Lemma GetSolution_kernel ctx :
  exists options file name,
    construction_params (GetSolution' ctx) =
    [ {| comp_options := options;
         l_wk := [256; 1; 1];
         g_wk :=
           [ size_mul 256
               (size_mul
                  ((GetInputChannelC ctx * GetFilterHeightY ctx * GetFilterWidthX ctx)
                     mod SIZE_MOD / 128)
                  ((GetBatchN ctx * GetOutputHeightHo ctx * GetOutputWidthWo ctx)
                     mod SIZE_MOD / 128));
             1; 1 ];
         kernel_file := file;
         kernel_name := name |} ].
Proof.
  do 3 eexists. unfold GetSolution. cbv zeta. cbn [construction_params app].
  rewrite !size_mul3. reflexivity.
Qed.

(** C4.  As amended: for every context for which [IsApplicable] returned
    true, whose group count divides C and whose products C*Y*X, N*Ho*Wo and
    256 * grid_size are non-negative and below 2^64, [GetSolution] produces
    the local work size (256,1,1) and the global work size
    (256 * grid_size, 1, 1) with grid_size = (M/128) * (N_dim/128),
    M = C*Y*X and N_dim = N*Ho*Wo, and 128 divides both M and N_dim. *)
Theorem GetSolution_work_sizes (ctx : ConvolutionContext) :
  IsApplicable IsXdlopsSupport GetEPackLength ctx = Ret true ->
  (group_counts ctx | GetInputChannelC ctx) ->
  0 <= GetInputChannelC ctx * GetFilterHeightY ctx * GetFilterWidthX ctx < SIZE_MOD ->
  0 <= GetBatchN ctx * GetOutputHeightHo ctx * GetOutputWidthWo ctx < SIZE_MOD ->
  256 * (GetInputChannelC ctx * GetFilterHeightY ctx * GetFilterWidthX ctx / 128
         * (GetBatchN ctx * GetOutputHeightHo ctx * GetOutputWidthWo ctx / 128))
    < SIZE_MOD ->
  exists k,
    construction_params (GetSolution' ctx) = [k] /\
    l_wk k = [256; 1; 1] /\
    g_wk k =
      [ 256 * (GetInputChannelC ctx * GetFilterHeightY ctx * GetFilterWidthX ctx / 128
               * (GetBatchN ctx * GetOutputHeightHo ctx * GetOutputWidthWo ctx / 128));
        1; 1 ] /\
    (128 | GetInputChannelC ctx * GetFilterHeightY ctx * GetFilterWidthX ctx) /\
    (128 | GetBatchN ctx * GetOutputHeightHo ctx * GetOutputWidthWo ctx).
Proof.
  intros Ha Hgc Hm Hn Hg.
  destruct (IsApplicable_true_divides ctx Ha) as (Hg0 & Dn & Dc).
  destruct (GetSolution_kernel ctx) as (options & file & name & E).
  eexists. split; [exact E|]. cbn [l_wk g_wk]. split; [reflexivity|].
  set (M := GetInputChannelC ctx * GetFilterHeightY ctx * GetFilterWidthX ctx) in *.
  set (Nd := GetBatchN ctx * GetOutputHeightHo ctx * GetOutputWidthWo ctx) in *.
  assert (HM : 0 <= M / 128) by (apply Z.div_pos; lia).
  assert (HN : 0 <= Nd / 128) by (apply Z.div_pos; lia).
  split; [|split].
  - rewrite (Z.mod_small M), (Z.mod_small Nd) by assumption.
    unfold size_mul.
    rewrite (Z.mod_small (M / 128 * (Nd / 128))) by (limits; nia).
    rewrite Z.mod_small by (limits; nia). reflexivity.
  - destruct Hgc as [q Hq]. subst M. rewrite Hq in *.
    rewrite Z.quot_mul in Dc by assumption.
    replace (q * group_counts ctx * GetFilterHeightY ctx * GetFilterWidthX ctx)
      with (group_counts ctx * (q * GetFilterHeightY ctx * GetFilterWidthX ctx)) by ring.
    now apply Z.divide_mul_r.
  - exact Dn.
Qed.

(** C9.  Every result of configuration generation carries work-size vectors
    of exactly three entries: [PrepareForUsage] gives the local work size
    (64, 8, 1), whose unused third dimension is 1, and a global work size of
    three entries, and it does return on the problems it is applicable to as
    long as the second global work size is an [int]; [GetSolution] gives
    (256, 1, 1) and (g0, 1, 1). *)
Theorem work_size_vectors_three_entries :
  (forall NDEBUG GenerateClangDefsym p r,
      PrepareForUsage NDEBUG GenerateClangDefsym p = Ret r ->
      exists k a b c,
        miopen.construction_params r = [k] /\
        miopen.l_wk k = [64; 8; 1] /\ miopen.g_wk k = [a; b; c]) /\
  (forall NDEBUG GenerateClangDefsym p,
      IsCorrect NDEBUG p = Ret true ->
      0 <= batch_sz p <= INT_MAX ->
      dim1 p <= INT_MAX ->
      exists r, PrepareForUsage NDEBUG GenerateClangDefsym p = Ret r) /\
  (forall ctx,
      exists k g0,
        construction_params (GetSolution' ctx) = [k] /\
        l_wk k = [256; 1; 1] /\ g_wk k = [g0; 1; 1] /\
        List.length (l_wk k) = 3%nat /\ List.length (g_wk k) = 3%nat).
Proof.
  split; [|split].
  - apply PrepareForUsage_Ret_vectors.
  - intros NDEBUG G p Hc Hb Hd. apply IsCorrect_true_shape in Hc.
    destruct (PrepareForUsage_applicable NDEBUG G p Hc Hb Hd) as [options E].
    eexists. exact E.
  - intro ctx. destruct (GetSolution_kernel ctx) as (options & file & name & E).
    do 2 eexists. split; [exact E|]. repeat split.
Qed.

(** C10.  For every context, applicable or not, the workspace size recorded
    in the solution [GetSolution] returns is the value of
    [GetWorkspaceSize] on that context. *)
Theorem GetSolution_workspace_size (ctx : ConvolutionContext) :
  workspce_sz (GetSolution' ctx) = GetWorkspaceSize ctx.
Proof.
  (* the field is assigned once, from the call on the same context *)
  unfold GetSolution. cbv zeta. cbn [workspce_sz]. reflexivity.
Qed.

End ImplicitGemm.

Section ImplicitGemmInstances.
Import solver.

(** C2, at the 1x1 example: fp16, k = 64 with element-pack length 4. *)
Lemma IsApplicable_true_iff_witness :
  IsApplicable xdlops_on epack_by_type ctx_1x1 = Ret true.
Proof.
  assert (Hg : 0 < group_counts ctx_1x1) by reflexivity.
  assert (Hk : 0 <= GetOutputChannelK ctx_1x1 <= INT_MAX)
    by (split; discriminate).
  assert (Hc : INT_MIN <= GetInputChannelC ctx_1x1 <= INT_MAX)
    by (split; discriminate).
  assert (He : 0 < epack_by_type ctx_1x1 true <= INT_MAX)
    by (split; [reflexivity | discriminate]).
  destruct (IsApplicable_true_iff xdlops_on epack_by_type ctx_1x1 Hg Hk Hc He) as [b [E Hb]].
  rewrite E. f_equal. apply Hb.
  split; [reflexivity|]. split; [reflexivity|].
  split; [right; left; reflexivity|]. split; [reflexivity|].
  split; [exists 16; reflexivity|]. split; [exists 1; reflexivity|].
  split; [exists 784; reflexivity | exists 1; reflexivity].
Defined.


(** C2, counterexample: the 1x1 example with a group count of 0 on a device
    without xdlops.  A condition is violated (xdlops is not supported), and
    the call does not return false: it divides by the group count first,
    which is undefined. *)
Lemma IsApplicable_true_iff_counterexample :
  group_counts ctx_no_groups = 0 /\
  xdlops_off ctx_no_groups = false /\
  IsApplicable xdlops_off epack_by_type ctx_no_groups = Undefined /\
  IsApplicable xdlops_on epack_by_type ctx_no_groups = Undefined.
Proof. repeat split. Qed.

(** C4, at the 1x1 example: M = 128, N_dim = 128 * 28 * 28, grid size 784. *)
Lemma GetSolution_work_sizes_witness :
  exists k,
    construction_params
      (GetSolution xdlops_on epack_by_type inline_asm_on atomic_add_off false false
         ctx_1x1) = [k] /\
    l_wk k = [256; 1; 1] /\
    g_wk k = [200704; 1; 1] /\
    (128 | 128 * 1 * 1) /\ (128 | 128 * 28 * 28).
Proof.
  apply (GetSolution_work_sizes xdlops_on epack_by_type inline_asm_on atomic_add_off
           false false ctx_1x1).
  - reflexivity.
  - exists 128. reflexivity.
  - vm_compute. split; [discriminate | reflexivity].
  - vm_compute. split; [discriminate | reflexivity].
  - vm_compute. reflexivity.
Defined.

(** C4, counterexample.  With C = 5 in 2 groups and an 8 x 8 filter the
    test passes on c*Y*X = 2*8*8 = 128, while M = C*Y*X = 320 leaves
    remainder 64: M / 128 is not exact.  With C = Y = X = 2^22 the test
    passes, M wraps to 0 in [std::size_t] and the global work size is
    (0, 1, 1), not (256 * (2^66 / 128) * 1, 1, 1). *)
Lemma GetSolution_work_sizes_counterexample :
  (IsApplicable xdlops_on epack_by_type ctx_uneven_groups = Ret true /\
   (GetInputChannelC ctx_uneven_groups * GetFilterHeightY ctx_uneven_groups
    * GetFilterWidthX ctx_uneven_groups) mod 128 = 64 /\
   map g_wk (construction_params
               (GetSolution xdlops_on epack_by_type inline_asm_on atomic_add_off
                  false false ctx_uneven_groups)) = [[512; 1; 1]]) /\
  (IsApplicable xdlops_on epack_by_type ctx_wrap = Ret true /\
   256 * (GetInputChannelC ctx_wrap * GetFilterHeightY ctx_wrap
          * GetFilterWidthX ctx_wrap / 128
          * (GetBatchN ctx_wrap * GetOutputHeightHo ctx_wrap
             * GetOutputWidthWo ctx_wrap / 128)) = 147573952589676412928 /\
   map g_wk (construction_params
               (GetSolution xdlops_on epack_by_type inline_asm_on atomic_add_off
                  false false ctx_wrap)) = [[0; 1; 1]]).
Proof. repeat split. Qed.

(** C9, at the small problem of the assembly solver and the 1x1 example of
    the implicit-GEMM solver. *)
Lemma work_size_vectors_three_entries_witness :
  (exists k a b c,
      miopen.construction_params usage_small = [k] /\
      miopen.l_wk k = [64; 8; 1] /\ miopen.g_wk k = [a; b; c]) /\
  (exists r, PrepareForUsage false defsym_text params_small = Ret r) /\
  (exists k g0,
      construction_params
        (GetSolution xdlops_on epack_by_type inline_asm_on atomic_add_off false false
           ctx_1x1) = [k] /\
      l_wk k = [256; 1; 1] /\ g_wk k = [g0; 1; 1] /\
      List.length (l_wk k) = 3%nat /\ List.length (g_wk k) = 3%nat).
Proof.
  destruct (work_size_vectors_three_entries xdlops_on epack_by_type inline_asm_on
              atomic_add_off false false) as (H1 & H2 & H3).
  split; [|split].
  - apply (H1 false defsym_text params_small usage_small). reflexivity.
  - apply (H2 false defsym_text params_small).
    + reflexivity.
    + vm_compute. split; discriminate.
    + vm_compute. discriminate.
  - apply (H3 ctx_1x1).
Defined.

End ImplicitGemmInstances.

(** * Further properties of the two solvers *)

(** ** AlignUp beyond its contract *)

Lemma align_up_of_multiple v s : 0 < s -> (s | v) -> align_up v s = v.
Proof.
  intros Hs [q ->]. unfold align_up, ceil_div.
  rewrite <- Z.mul_opp_l, Z.div_mul by lia. lia.
Qed.

(** The value [AlignUp] returns on a non-negative [int] and a positive
    [unsigned] step, with the wrap-around left in. *)
Lemma AlignUp_value NDEBUG val step :
  0 <= val <= INT_MAX -> 0 < step < UINT_MOD ->
  AlignUp NDEBUG val step =
  Ret (to_int (((val + step - 1) mod UINT_MOD / step * step) mod UINT_MOD)).
Proof.
  intros Hv Hs. unfold AlignUp.
  assert (Ha : c_assert NDEBUG (0 <? step) = Ret tt).
  { unfold c_assert. destruct NDEBUG; [reflexivity|].
    destruct (Z.ltb_spec 0 step); [reflexivity | lia]. }
  rewrite Ha. cbn [bind].
  unfold uint_div. destruct (Z.eqb_spec step 0) as [E | _]; [lia|]. cbn [bind].
  unfold uint_mul, uint_sub, uint_add, to_unsigned.
  rewrite Zplus_mod_idemp_l, Zminus_mod_idemp_l. reflexivity.
Qed.

(** The multiple computed before the final conversions never leaves
    [unsigned]. *)
Lemma AlignUp_multiple_small val step :
  0 < step ->
  0 <= (val + step - 1) mod UINT_MOD / step * step < UINT_MOD.
Proof.
  intro Hs.
  pose proof (Z.mod_pos_bound (val + step - 1) UINT_MOD ltac:(limits; lia)) as Hu.
  set (u := (val + step - 1) mod UINT_MOD) in *.
  pose proof (Z.div_mod u step ltac:(lia)).
  pose proof (Z.mod_pos_bound u step Hs).
  assert (0 <= u / step) by (apply Z.div_pos; lia).
  nia.
Qed.

(** A non-negative result of [AlignUp] is the multiple itself. *)
Lemma AlignUp_Ret_nonneg NDEBUG val step r :
  0 <= val <= INT_MAX -> 0 < step < UINT_MOD ->
  AlignUp NDEBUG val step = Ret r -> 0 <= r ->
  r = (val + step - 1) mod UINT_MOD / step * step /\ r <= INT_MAX.
Proof.
  intros Hv Hs E Hr. rewrite AlignUp_value in E by assumption.
  injection E as E.
  pose proof (AlignUp_multiple_small val step ltac:(lia)) as Hm.
  rewrite Z.mod_small in E by exact Hm.
  unfold to_int in E.
  destruct (Z.leb_spec ((val + step - 1) mod UINT_MOD / step * step) INT_MAX);
    [split; [now symmetry | lia] | lia].
Qed.

(** X1.  For every non-negative [int] value and every positive [unsigned]
    step, [AlignUp] returns the value it was given exactly when that value
    is already a multiple of the step. *)
Theorem AlignUp_fixed_point (NDEBUG : bool) (val step : Z) :
  0 <= val <= INT_MAX -> 0 < step < UINT_MOD ->
  (AlignUp NDEBUG val step = Ret val <-> (step | val)).
Proof.
  intros Hv Hs. split.
  - intro E.
    destruct (AlignUp_Ret_nonneg NDEBUG val step val Hv Hs E ltac:(lia)) as [-> _].
    apply Z.divide_factor_r.
  - intro Hd.
    rewrite <- (align_up_of_multiple val step ltac:(lia) Hd) at 2.
    apply AlignUp_align_up; try assumption.
    rewrite align_up_of_multiple by (assumption || lia). lia.
Qed.

Lemma AlignUp_fixed_point_witness :
  AlignUp false 192 64 = Ret 192 <-> (64 | 192).
Proof.
  apply (AlignUp_fixed_point false 192 64); limits; lia.
Defined.

(** X2.  Aligning twice is aligning once: a non-negative result of
    [AlignUp] is a multiple of the step, and [AlignUp] returns it
    unchanged. *)
Theorem AlignUp_idempotent (NDEBUG : bool) (val step r : Z) :
  0 <= val <= INT_MAX -> 0 < step < UINT_MOD ->
  AlignUp NDEBUG val step = Ret r -> 0 <= r ->
  (step | r) /\ AlignUp NDEBUG r step = Ret r.
Proof.
  intros Hv Hs E Hr.
  destruct (AlignUp_Ret_nonneg NDEBUG val step r Hv Hs E Hr) as [Er Hmax].
  assert (Hd : (step | r)) by (rewrite Er; apply Z.divide_factor_r).
  split; [exact Hd|].
  rewrite <- (align_up_of_multiple r step ltac:(lia) Hd) at 2.
  apply AlignUp_align_up; try lia.
  rewrite align_up_of_multiple by (assumption || lia). lia.
Qed.

Lemma AlignUp_idempotent_witness :
  (4 | 132) /\ AlignUp false 132 4 = Ret 132.
Proof.
  apply (AlignUp_idempotent false 130 4 132).
  - limits. lia.
  - limits. lia.
  - reflexivity.
  - lia.
Defined.

(** X3.  As long as the aligned values are [int]s, [AlignUp] is monotone in
    its value and overshoots it by less than one step. *)
Theorem AlignUp_monotone (NDEBUG : bool) (v v' step : Z) :
  0 <= v <= v' -> 0 < step < UINT_MOD ->
  ceil_div v' step * step <= INT_MAX ->
  exists a b,
    AlignUp NDEBUG v step = Ret a /\ AlignUp NDEBUG v' step = Ret b /\
    a <= b /\ v <= a < v + step /\ v' <= b < v' + step.
Proof.
  intros Hv Hs Hm. fold (align_up v' step) in Hm.
  pose proof (align_up_ge v step ltac:(lia)).
  pose proof (align_up_lt v step ltac:(lia)).
  pose proof (align_up_ge v' step ltac:(lia)).
  pose proof (align_up_lt v' step ltac:(lia)).
  assert (Hle : align_up v step <= align_up v' step).
  { apply align_up_least; [lia | apply align_up_multiple | lia]. }
  exists (align_up v step), (align_up v' step).
  split; [apply AlignUp_align_up; lia|].
  split; [apply AlignUp_align_up; lia|].
  lia.
Qed.

Lemma AlignUp_monotone_witness :
  exists a b,
    AlignUp false 3 64 = Ret a /\ AlignUp false 65 64 = Ret b /\
    a <= b /\ 3 <= a < 3 + 64 /\ 65 <= b < 65 + 64.
Proof.
  apply (AlignUp_monotone false 3 65 64).
  - lia.
  - limits. lia.
  - vm_compute. discriminate.
Defined.

(** X4.  The outcomes of [AlignUp] on an [unsigned] step: the assertion
    fails exactly for step 0 in a build with assertions, the call is
    undefined (a division by zero) exactly for step 0 in a build without
    them, and for a positive step both builds return the same [int]. *)
Theorem AlignUp_outcomes (NDEBUG : bool) (val step : Z) :
  0 <= step ->
  (AlignUp NDEBUG val step = AssertFail <-> NDEBUG = false /\ step = 0) /\
  (AlignUp NDEBUG val step = Undefined <-> NDEBUG = true /\ step = 0) /\
  (0 < step -> exists r, AlignUp true val step = Ret r /\ AlignUp false val step = Ret r).
Proof.
  intro Hs. unfold AlignUp, c_assert, uint_div.
  destruct (Z.ltb_spec 0 step) as [Hp | Hz];
    destruct (Z.eqb_spec step 0) as [E0 | Hn0]; try lia.
  - destruct NDEBUG; cbn [bind];
      (split; [split; [discriminate | intros [? ?]; lia]|]);
      (split; [split; [discriminate | intros [? ?]; lia]|]);
      intros _; eexists; split; reflexivity.
  - destruct NDEBUG; cbn [bind].
    + split; [split; [discriminate | intros [? _]; discriminate]|].
      split; [split; [intros _; split; [reflexivity | assumption] | reflexivity]|].
      intro; lia.
    + split; [split; [intros _; split; [reflexivity | assumption] | reflexivity]|].
      split; [split; [discriminate | intros [? _]; discriminate]|].
      intro; lia.
Qed.

Lemma AlignUp_outcomes_witness :
  (AlignUp false 5 0 = AssertFail <-> false = false /\ 0 = 0) /\
  (AlignUp false 5 0 = Undefined <-> false = true /\ 0 = 0) /\
  (0 < 0 -> exists r, AlignUp true 5 0 = Ret r /\ AlignUp false 5 0 = Ret r).
Proof.
  apply (AlignUp_outcomes false 5 0). lia.
Defined.

(** ** The outcomes of IsCorrect *)

(** The checks of [IsCorrect] that follow the assertion. *)
Definition shape_checks (params : ImplementationSearchParameters) : result bool :=
  w2 <- int_mul (pad0 params) 2 ;;
  min_in_width <- int_sub (kernel_size0 params) w2 ;;
  h2 <- int_mul (pad1 params) 2 ;;
  min_in_height <- int_sub (kernel_size1 params) h2 ;;
  Ret ((pad0 params >=? 0) && (pad0 params <=? 5) && (pad1 params >=? 0)
       && (pad1 params <=? 5) && (kernel_stride0 params =? 2)
       && (kernel_stride1 params =? 2) && (kernel_size0 params =? 10)
       && (kernel_size1 params =? 5) && (n_inputs params >=? 1)
       && (Z.rem (n_outputs params) 16 =? 0) && (n_outputs params >=? 1)
       && (in_width params >=? min_in_width) && (in_width params <=? 8192 - 1)
       && (in_height params >=? min_in_height) && (in_height params <=? 131077 - 1)
       && (in_layout params =? "NCHW")%string).

(** The three early returns of [IsCorrect] all pass. *)
Definition prerequisites (p : ImplementationSearchParameters) : bool :=
  assembler_available p && device_is_gfx8_9_no_xnack (device_name p) && forward p.

(** The four [int] computations of [IsCorrect] stay within [int]. *)
Definition bounds_fit (p : ImplementationSearchParameters) : bool :=
  in_int (pad0 p * 2) && in_int (kernel_size0 p - pad0 p * 2)
  && in_int (pad1 p * 2) && in_int (kernel_size1 p - pad1 p * 2).

Lemma IsCorrect_after_assert NDEBUG p :
  prerequisites p = true ->
  NDEBUG = true \/ weights_layout p = ""%string ->
  IsCorrect NDEBUG p = shape_checks p.
Proof.
  unfold prerequisites. intros Hp Ha.
  apply andb_true_iff in Hp as [Hp Hf]. apply andb_true_iff in Hp as [Hp Hd].
  unfold IsCorrect. rewrite Hp, Hd, Hf. cbn [negb].
  replace (c_assert NDEBUG (Nat.eqb (String.length (weights_layout p)) 0)) with (Ret tt).
  - reflexivity.
  - destruct Ha as [-> | ->]; [reflexivity | destruct NDEBUG; reflexivity].
Qed.

Lemma IsCorrect_prerequisite_fails NDEBUG p :
  prerequisites p = false -> IsCorrect NDEBUG p = Ret false.
Proof.
  unfold prerequisites, IsCorrect.
  destruct (assembler_available p); [|reflexivity].
  destruct (device_is_gfx8_9_no_xnack (device_name p)); [|reflexivity].
  destruct (forward p); [discriminate | reflexivity].
Qed.

Lemma shape_checks_fit p :
  bounds_fit p = true -> exists b, shape_checks p = Ret b.
Proof.
  unfold bounds_fit, shape_checks, int_mul, int_sub, int_of. intro H.
  apply andb_true_iff in H as [H H4]. apply andb_true_iff in H as [H H3].
  apply andb_true_iff in H as [H1 H2].
  rewrite H1. cbn [bind]. rewrite H2. cbn [bind].
  rewrite H3. cbn [bind]. rewrite H4. cbn [bind]. eexists. reflexivity.
Qed.

Lemma shape_checks_unfit p :
  bounds_fit p = false -> shape_checks p = Undefined.
Proof.
  unfold bounds_fit, shape_checks, int_mul, int_sub, int_of. intro H.
  destruct (in_int (pad0 p * 2)); [|reflexivity]. cbn [bind].
  destruct (in_int (kernel_size0 p - pad0 p * 2)); [|reflexivity]. cbn [bind].
  destruct (in_int (pad1 p * 2)); [|reflexivity]. cbn [bind].
  destruct (in_int (kernel_size1 p - pad1 p * 2)); [discriminate | reflexivity].
Qed.

Lemma shape_checks_true p : shape_checks p = Ret true <-> shape_ok p.
Proof.
  split.
  - unfold shape_checks. intro H.
    apply bind_Ret in H as (w2 & Hw2 & H).
    apply bind_Ret in H as (mw & Hmw & H).
    apply bind_Ret in H as (h2 & Hh2 & H).
    apply bind_Ret in H as (mh & Hmh & H).
    apply int_of_Ret in Hw2 as [-> _], Hmw as [-> _], Hh2 as [-> _], Hmh as [-> _].
    injection H as H. bools.
    match goal with H : Z.rem _ 16 = 0 |- _ => apply rem16_divide in H end.
    unfold shape_ok. repeat split; try assumption; lia.
  - intros (Hp0 & Hp1 & Hs0 & Hs1 & Hk0 & Hk1 & Hc & Hn & Hn16 & Hiw & Hih & Hl).
    unfold shape_checks, int_mul, int_sub.
    rewrite (int_of_in (pad0 p * 2)) by (limits; lia). cbn [bind].
    rewrite (int_of_in (kernel_size0 p - pad0 p * 2)) by (limits; lia). cbn [bind].
    rewrite (int_of_in (pad1 p * 2)) by (limits; lia). cbn [bind].
    rewrite (int_of_in (kernel_size1 p - pad1 p * 2)) by (limits; lia). cbn [bind].
    f_equal. apply rem16_divide in Hn16.
    repeat (apply andb_true_iff; split);
      first [ apply Z.geb_le; lia | apply Z.leb_le; lia | apply Z.eqb_eq; lia
            | apply String.eqb_eq; assumption ].
Qed.

Lemma weights_layout_empty_dec (p : ImplementationSearchParameters) :
  weights_layout p = ""%string \/ weights_layout p <> ""%string.
Proof. destruct (weights_layout p); [left; reflexivity | right; discriminate]. Qed.

(** X5.  [IsCorrect] stops on its assertion exactly in a build with
    assertions, on a problem that passes the three early returns (assembler
    available, whitelisted device, forward) and carries a non-empty weights
    layout. *)
Theorem IsCorrect_assertion_iff (NDEBUG : bool) (p : ImplementationSearchParameters) :
  IsCorrect NDEBUG p = AssertFail <->
  NDEBUG = false /\ assembler_available p = true /\
  device_is_gfx8_9_no_xnack (device_name p) = true /\ forward p = true /\
  weights_layout p <> ""%string.
Proof.
  destruct (prerequisites p) eqn:Hp.
  - destruct (weights_layout_empty_dec p) as [Hw | Hw].
    + rewrite (IsCorrect_after_assert NDEBUG p Hp (or_intror Hw)).
      destruct (bounds_fit p) eqn:Hb.
      * destruct (shape_checks_fit p Hb) as [b ->].
        split; [discriminate | intros (_ & _ & _ & _ & H); contradiction].
      * rewrite (shape_checks_unfit p Hb).
        split; [discriminate | intros (_ & _ & _ & _ & H); contradiction].
    + destruct NDEBUG.
      * rewrite (IsCorrect_after_assert true p Hp (or_introl eq_refl)).
        destruct (bounds_fit p) eqn:Hb.
        -- destruct (shape_checks_fit p Hb) as [b ->].
           split; [discriminate | intros (H & _); discriminate].
        -- rewrite (shape_checks_unfit p Hb).
           split; [discriminate | intros (H & _); discriminate].
      * unfold prerequisites in Hp.
        apply andb_true_iff in Hp as [Hp Hf]. apply andb_true_iff in Hp as [Hp Hd].
        unfold IsCorrect. rewrite Hp, Hd, Hf. cbn [negb].
        destruct (weights_layout p) as [|a w]; [contradiction|].
        cbn. split; [intros _; repeat split; discriminate | reflexivity].
  - rewrite (IsCorrect_prerequisite_fails NDEBUG p Hp).
    split; [discriminate|]. intros (_ & Ha & Hd & Hf & _).
    unfold prerequisites in Hp. rewrite Ha, Hd, Hf in Hp. discriminate.
Qed.

(** X6.  On a problem that passes the three early returns and the assertion
    (empty weights layout, or a build without assertions), with paddings
    within [-2^29, 2^29] and kernel sizes within [-2^30, 2^30), [IsCorrect]
    returns a boolean, and the boolean is true exactly when the shape
    constraints hold: every violated constraint gives false. *)
Theorem IsCorrect_decides (NDEBUG : bool) (p : ImplementationSearchParameters) :
  assembler_available p = true ->
  device_is_gfx8_9_no_xnack (device_name p) = true ->
  forward p = true ->
  NDEBUG = true \/ weights_layout p = ""%string ->
  - 2 ^ 29 <= pad0 p <= 2 ^ 29 -> - 2 ^ 29 <= pad1 p <= 2 ^ 29 ->
  - 2 ^ 30 <= kernel_size0 p < 2 ^ 30 -> - 2 ^ 30 <= kernel_size1 p < 2 ^ 30 ->
  exists b : bool,
    IsCorrect NDEBUG p = Ret b /\
    (b = true <->
     0 <= pad0 p <= 5 /\ 0 <= pad1 p <= 5 /\
     kernel_stride0 p = 2 /\ kernel_stride1 p = 2 /\
     kernel_size0 p = 10 /\ kernel_size1 p = 5 /\
     1 <= n_inputs p /\
     1 <= n_outputs p /\ (16 | n_outputs p) /\
     kernel_size0 p - 2 * pad0 p <= in_width p <= 8191 /\
     kernel_size1 p - 2 * pad1 p <= in_height p <= 131076 /\
     in_layout p = "NCHW"%string).
Proof.
  intros Ha Hd Hf Hw Hp0 Hp1 Hk0 Hk1.
  assert (Hp : prerequisites p = true) by (unfold prerequisites; now rewrite Ha, Hd, Hf).
  rewrite (IsCorrect_after_assert NDEBUG p Hp Hw).
  assert (Hb : bounds_fit p = true).
  { unfold bounds_fit. change (2 ^ 29) with 536870912 in *.
    change (2 ^ 30) with 1073741824 in *.
    rewrite !(proj2 (in_int_iff _)) by (limits; lia). reflexivity. }
  destruct (shape_checks_fit p Hb) as [b E]. exists b. split; [exact E|].
  fold (shape_ok p). rewrite <- shape_checks_true, E.
  split; [now intros -> | now intros [= ->]].
Qed.

(** X6, at the KCHW problem in a build without assertions: the weights
    layout is not looked at and the answer is true. *)
Lemma IsCorrect_decides_witness :
  exists b : bool,
    IsCorrect true params_kchw = Ret b /\
    (b = true <->
     0 <= 0 <= 5 /\ 0 <= 0 <= 5 /\ 2 = 2 /\ 2 = 2 /\ 10 = 10 /\ 5 = 5 /\
     1 <= 3 /\ 1 <= 32 /\ (16 | 32) /\
     10 - 2 * 0 <= 14 <= 8191 /\ 5 - 2 * 0 <= 23 <= 131076 /\
     "NCHW"%string = "NCHW"%string).
Proof.
  apply (IsCorrect_decides true params_kchw); try reflexivity.
  - left. reflexivity.
  - simpl. lia.
  - simpl. lia.
  - simpl. lia.
  - simpl. lia.
Defined.

(** X7.  [IsCorrect] computes the minimal input sizes before it looks at the
    paddings: it is undefined (a signed overflow) exactly on the problems
    that pass the early returns and the assertion and on which one of
    pad * 2 and kernel_size - pad * 2 leaves [int]. *)
Theorem IsCorrect_undefined_iff (NDEBUG : bool) (p : ImplementationSearchParameters) :
  IsCorrect NDEBUG p = Undefined <->
  prerequisites p = true /\
  (NDEBUG = true \/ weights_layout p = ""%string) /\
  bounds_fit p = false.
Proof.
  destruct (prerequisites p) eqn:Hp.
  - destruct (weights_layout_empty_dec p) as [Hw | Hw].
    + rewrite (IsCorrect_after_assert NDEBUG p Hp (or_intror Hw)).
      destruct (bounds_fit p) eqn:Hb.
      * destruct (shape_checks_fit p Hb) as [b ->].
        split; [discriminate | intros (_ & _ & H); discriminate].
      * rewrite (shape_checks_unfit p Hb). tauto.
    + destruct NDEBUG.
      * rewrite (IsCorrect_after_assert true p Hp (or_introl eq_refl)).
        destruct (bounds_fit p) eqn:Hb.
        -- destruct (shape_checks_fit p Hb) as [b ->].
           split; [discriminate | intros (_ & _ & H); discriminate].
        -- rewrite (shape_checks_unfit p Hb). tauto.
      * assert (E : IsCorrect false p = AssertFail).
        { unfold prerequisites in Hp.
          apply andb_true_iff in Hp as [Hp' Hf]. apply andb_true_iff in Hp' as [Hp' Hd].
          unfold IsCorrect. rewrite Hp', Hd, Hf. cbn [negb].
          destruct (weights_layout p) as [|a w]; [contradiction | reflexivity]. }
        rewrite E. split; [discriminate|].
        intros (_ & [H | H] & _); [discriminate | contradiction].
  - rewrite (IsCorrect_prerequisite_fails NDEBUG p Hp).
    split; [discriminate | intros (H & _); discriminate].
Qed.

(** ** The launch geometry of ConvAsm5x10u2v2f1, continued *)

(** An applicable problem with the tallest padded image and 262128 output
    channels. *)
Definition params_edge : ImplementationSearchParameters :=
  {| assembler_available := true; device_name := "gfx803"; forward := true;
     weights_layout := ""; in_layout := "NCHW";
     kernel_size0 := 10; kernel_size1 := 5; pad0 := 0; pad1 := 5;
     kernel_stride0 := 2; kernel_stride1 := 2; n_inputs := 1;
     n_outputs := 262128;
     in_width := 10; in_height := 131076; batch_sz := 1; rmv := V1 |}.

(** The small problem with a horizontal stride of 0. *)
Definition params_stride0 : ImplementationSearchParameters :=
  {| assembler_available := true; device_name := "gfx900"; forward := true;
     weights_layout := ""; in_layout := "NCHW";
     kernel_size0 := 10; kernel_size1 := 5; pad0 := 0; pad1 := 0;
     kernel_stride0 := 0; kernel_stride1 := 2; n_inputs := 3; n_outputs := 32;
     in_width := 14; in_height := 23; batch_sz := 8; rmv := V3 |}.

Lemma half_channels p :
  shape_ok p -> (8 | n_outputs p / 2) /\ 8 <= n_outputs p / 2.
Proof.
  intros (_ & _ & _ & _ & _ & _ & _ & Hn & [q Hq] & _).
  rewrite Hq. replace (q * 16) with (q * 8 * 2) by lia.
  rewrite Z.div_mul by lia. split; [apply Z.divide_factor_r | lia].
Qed.

Lemma align_up_div v s : 0 < s -> align_up v s / s = ceil_div v s.
Proof. intro Hs. unfold align_up. apply Z.div_mul. lia. Qed.

Lemma align_up_le_multiple v s m : 0 < s -> v <= m * s -> align_up v s <= m * s.
Proof.
  intros Hs Hv. apply align_up_least; [assumption | apply Z.divide_factor_r | assumption].
Qed.

(** X8.  On an applicable problem both output sizes are positive
    (1 <= out_w <= 4096, 1 <= out_h <= 65541) and count the filter
    placements: the last 10 x 5 window at stride 2 still lies inside the
    padded image and one more would not. *)
Theorem out_sizes_count_placements (NDEBUG : bool) (p : ImplementationSearchParameters) :
  IsCorrect NDEBUG p = Ret true ->
  exists w h,
    out_w p = Ret w /\ out_h p = Ret h /\
    1 <= w <= 4096 /\ 1 <= h <= 65541 /\
    (w - 1) * 2 + 10 <= in_width p + 2 * pad0 p < w * 2 + 10 /\
    (h - 1) * 2 + 5 <= in_height p + 2 * pad1 p < h * 2 + 5.
Proof.
  intro H. apply IsCorrect_true_shape in H.
  destruct (out_w_shape p H) as [Ew Bw], (out_h_shape p H) as [Eh Bh].
  destruct H as (_ & _ & Hs0 & Hs1 & Hk0 & Hk1 & _).
  do 2 eexists. split; [exact Ew|]. split; [exact Eh|].
  unfold out_size in *. rewrite Hs0, Hs1, Hk0, Hk1 in *.
  pose proof (Z.div_mod (in_width p + 2 * pad0 p - (10 - 2)) 2 ltac:(lia)).
  pose proof (Z.mod_pos_bound (in_width p + 2 * pad0 p - (10 - 2)) 2 ltac:(lia)).
  pose proof (Z.div_mod (in_height p + 2 * pad1 p - (5 - 2)) 2 ltac:(lia)).
  pose proof (Z.mod_pos_bound (in_height p + 2 * pad1 p - (5 - 2)) 2 ltac:(lia)).
  lia.
Qed.

Lemma out_sizes_count_placements_witness :
  exists w h,
    out_w params_small = Ret w /\ out_h params_small = Ret h /\
    1 <= w <= 4096 /\ 1 <= h <= 65541 /\
    (w - 1) * 2 + 10 <= 14 + 2 * 0 < w * 2 + 10 /\
    (h - 1) * 2 + 5 <= 23 + 2 * 0 < h * 2 + 5.
Proof.
  exact (out_sizes_count_placements false params_small eq_refl).
Defined.

(** X9.  On an applicable problem whose channel count is an [int], the
    alignment of the halved number of output channels changes nothing:
    divisibility of the channels by 16 makes the half a multiple of 8. *)
Theorem AlignUp_half_channels (NDEBUG : bool) (p : ImplementationSearchParameters) :
  IsCorrect NDEBUG p = Ret true ->
  n_outputs p <= INT_MAX ->
  int_div (n_outputs p) 2 = Ret (n_outputs p / 2) /\
  AlignUp NDEBUG (n_outputs p / 2) 8 = Ret (n_outputs p / 2).
Proof.
  intros H Hmax. apply IsCorrect_true_shape in H.
  destruct (half_channels p H) as [Hd Hge].
  destruct H as (_ & _ & _ & _ & _ & _ & _ & Hn & _).
  assert (n_outputs p / 2 <= n_outputs p) by (apply Z.div_le_upper_bound; lia).
  split.
  - unfold int_div. change (2 =? 0) with false. cbv iota.
    rewrite Z.quot_div_nonneg by lia. apply int_of_in. limits. lia.
  - rewrite <- (align_up_of_multiple (n_outputs p / 2) 8 ltac:(lia) Hd) at 2.
    apply AlignUp_align_up; [lia | limits; lia |].
    rewrite align_up_of_multiple by (assumption || lia). lia.
Qed.

Lemma AlignUp_half_channels_witness :
  int_div 32 2 = Ret 16 /\ AlignUp false 16 8 = Ret 16.
Proof.
  apply (AlignUp_half_channels false params_small).
  - reflexivity.
  - vm_compute. discriminate.
Defined.

(** X10.  On an applicable problem with a non-negative batch size and a
    second global work size that is an [int], the first two global work
    sizes [PrepareForUsage] returns are positive multiples of the local ones
    (64 | g0 with 64 <= g0 <= 4096, 8 | g1 with 8 <= g1), g0 covers out_w
    with less than 64 to spare, g1 = ceil(out_h / 4) * (output_channels / 2),
    and the third global work size is the batch size (0 for an empty
    batch). *)
Theorem PrepareForUsage_launch_well_formed
    (NDEBUG : bool) (GenerateClangDefsym : string -> string -> Z -> string)
    (p : ImplementationSearchParameters) :
  IsCorrect NDEBUG p = Ret true ->
  0 <= batch_sz p <= INT_MAX ->
  dim1 p <= INT_MAX ->
  exists k g0 g1,
    PrepareForUsage NDEBUG GenerateClangDefsym p = Ret {| construction_params := [k] |} /\
    l_wk k = [64; 8; 1] /\ g_wk k = [g0; g1; batch_sz p] /\
    (64 | g0) /\ 64 <= g0 <= 4096 /\
    out_size (in_width p) (pad0 p) (kernel_size0 p) (kernel_stride0 p) <= g0
      < out_size (in_width p) (pad0 p) (kernel_size0 p) (kernel_stride0 p) + 64 /\
    (8 | g1) /\ 8 <= g1 /\
    g1 = ceil_div (out_size (in_height p) (pad1 p) (kernel_size1 p) (kernel_stride1 p)) 4
         * (n_outputs p / 2).
Proof.
  intros Hc Hb Hd. apply IsCorrect_true_shape in Hc.
  destruct (PrepareForUsage_applicable NDEBUG GenerateClangDefsym p Hc Hb Hd)
    as [options E].
  destruct (out_w_shape p Hc) as [_ Bw], (out_h_shape p Hc) as [_ Bh].
  destruct (half_channels p Hc) as [Hd8 Hge].
  unfold dim1 in *.
  set (ow := out_size (in_width p) (pad0 p) (kernel_size0 p) (kernel_stride0 p)) in *.
  set (oh := out_size (in_height p) (pad1 p) (kernel_size1 p) (kernel_stride1 p)) in *.
  pose proof (align_up_ge ow 64 ltac:(lia)).
  pose proof (align_up_lt ow 64 ltac:(lia)).
  pose proof (align_up_le_multiple ow 64 64 ltac:(lia) ltac:(lia)).
  destruct (align_up_multiple ow 64) as [qw Hqw].
  pose proof (align_up_ge oh 4 ltac:(lia)) as Hoh.
  rewrite (align_up_div oh 4) in * by lia.
  rewrite (align_up_of_multiple (n_outputs p / 2) 8) in * by (assumption || lia).
  assert (Hq : 1 <= ceil_div oh 4).
  { unfold align_up in Hoh. nia. }
  do 3 eexists. split; [exact E|]. cbn [l_wk g_wk].
  split; [reflexivity|]. split; [reflexivity|].
  split; [apply align_up_multiple|]. split; [lia|]. split; [lia|].
  split; [now apply Z.divide_mul_r|]. split; [nia | reflexivity].
Qed.

Lemma PrepareForUsage_launch_well_formed_witness :
  exists k g0 g1,
    PrepareForUsage false defsym_text params_small
      = Ret {| construction_params := [k] |} /\
    l_wk k = [64; 8; 1] /\ g_wk k = [g0; g1; 8] /\
    (64 | g0) /\ 64 <= g0 <= 4096 /\ 3 <= g0 < 3 + 64 /\
    (8 | g1) /\ 8 <= g1 /\ g1 = ceil_div 10 4 * (32 / 2).
Proof.
  apply (PrepareForUsage_launch_well_formed false defsym_text params_small).
  - reflexivity.
  - vm_compute. split; discriminate.
  - vm_compute. discriminate.
Defined.

Lemma bind_ext {A B} (m : result A) (k k' : A -> result B) :
  (forall a, k a = k' a) -> bind m k = bind m k'.
Proof. intro H. destruct m; simpl; [apply H | reflexivity | reflexivity]. Qed.

Lemma bind_no_assert {A B} (m : result A) (k : A -> result B) :
  m <> AssertFail -> (forall a, k a <> AssertFail) -> bind m k <> AssertFail.
Proof. intros Hm Hk. destruct m; simpl; [apply Hk | now elim Hm | discriminate]. Qed.

Lemma int_of_no_assert z : int_of z <> AssertFail.
Proof. unfold int_of. destruct (in_int z); discriminate. Qed.

Lemma int_div_no_assert a b : int_div a b <> AssertFail.
Proof.
  unfold int_div. destruct (b =? 0); [discriminate | apply int_of_no_assert].
Qed.

Lemma AlignUp_build_independent val step :
  0 < step -> AlignUp true val step = AlignUp false val step.
Proof.
  intro Hs. unfold AlignUp, c_assert.
  destruct (Z.ltb_spec 0 step); [reflexivity | lia].
Qed.

Lemma AlignUp_no_assert NDEBUG val step :
  0 < step -> AlignUp NDEBUG val step <> AssertFail.
Proof.
  intro Hs. unfold AlignUp, c_assert, uint_div.
  destruct (Z.ltb_spec 0 step); [|lia].
  destruct (Z.eqb_spec step 0); [lia|].
  destruct NDEBUG; discriminate.
Qed.

Lemma out_w_no_assert p : out_w p <> AssertFail.
Proof.
  unfold out_w, int_mul, int_add, int_sub.
  repeat (apply bind_no_assert; [apply int_of_no_assert | intro]).
  apply int_div_no_assert.
Qed.

Lemma out_h_no_assert p : out_h p <> AssertFail.
Proof.
  unfold out_h, int_mul, int_add, int_sub.
  repeat (apply bind_no_assert; [apply int_of_no_assert | intro]).
  apply int_div_no_assert.
Qed.

(** X11.  [PrepareForUsage] never stops on an assertion, whatever the
    problem: the steps it passes to [AlignUp] are the positive constants
    64, 4 and 8.  A build with assertions and one without them give the
    same outcome. *)
Theorem PrepareForUsage_never_asserts
    (NDEBUG : bool) (GenerateClangDefsym : string -> string -> Z -> string)
    (p : ImplementationSearchParameters) :
  PrepareForUsage NDEBUG GenerateClangDefsym p <> AssertFail /\
  PrepareForUsage true GenerateClangDefsym p = PrepareForUsage false GenerateClangDefsym p.
Proof.
  split.
  - unfold PrepareForUsage. cbv zeta.
    apply bind_no_assert; [apply out_w_no_assert | intro ow].
    apply bind_no_assert; [apply out_h_no_assert | intro oh].
    apply bind_no_assert; [apply AlignUp_no_assert; lia | intro g0].
    apply bind_no_assert; [apply AlignUp_no_assert; lia | intro a1].
    apply bind_no_assert; [apply int_div_no_assert | intro q1].
    apply bind_no_assert; [apply int_div_no_assert | intro k2].
    apply bind_no_assert; [apply AlignUp_no_assert; lia | intro a2].
    apply bind_no_assert; [apply int_of_no_assert | intro g1].
    discriminate.
  - unfold PrepareForUsage. cbv zeta.
    apply bind_ext; intro ow. apply bind_ext; intro oh.
    rewrite (AlignUp_build_independent ow 64) by lia. apply bind_ext; intro g0.
    rewrite (AlignUp_build_independent oh 4) by lia. apply bind_ext; intro a1.
    apply bind_ext; intro q1. apply bind_ext; intro k2.
    rewrite (AlignUp_build_independent k2 8) by lia. reflexivity.
Qed.

Lemma out_w_zero_stride p : kernel_stride0 p = 0 -> out_w p = Undefined.
Proof.
  intro H. unfold out_w, int_mul, int_add, int_sub, int_div, int_of. rewrite H.
  repeat (match goal with |- context [in_int ?z] => destruct (in_int z) end;
          cbn [bind]; try reflexivity).
Qed.

Lemma out_h_zero_stride p : kernel_stride1 p = 0 -> out_h p = Undefined.
Proof.
  intro H. unfold out_h, int_mul, int_add, int_sub, int_div, int_of. rewrite H.
  repeat (match goal with |- context [in_int ?z] => destruct (in_int z) end;
          cbn [bind]; try reflexivity).
Qed.

(** X12.  [PrepareForUsage] divides by the strides without looking at them:
    on a problem with a zero stride, which [IsCorrect] would have turned
    away, the call is undefined (a division by zero or an overflow before
    it). *)
Theorem PrepareForUsage_zero_stride
    (NDEBUG : bool) (GenerateClangDefsym : string -> string -> Z -> string)
    (p : ImplementationSearchParameters) :
  kernel_stride0 p = 0 \/ kernel_stride1 p = 0 ->
  PrepareForUsage NDEBUG GenerateClangDefsym p = Undefined /\
  IsCorrect NDEBUG p <> Ret true.
Proof.
  intro H. split.
  - unfold PrepareForUsage. destruct H as [H | H].
    + now rewrite (out_w_zero_stride p H).
    + rewrite (out_h_zero_stride p H).
      pose proof (out_w_no_assert p). destruct (out_w p); [reflexivity | contradiction | reflexivity].
  - intro E. apply IsCorrect_true_shape in E.
    destruct E as (_ & _ & Hs0 & Hs1 & _). lia.
Qed.

Lemma PrepareForUsage_zero_stride_witness :
  PrepareForUsage false defsym_text params_stride0 = Undefined /\
  IsCorrect false params_stride0 <> Ret true.
Proof.
  apply (PrepareForUsage_zero_stride false defsym_text params_stride0).
  left. reflexivity.
Defined.

(** X13.  Up to 262112 output channels the launch geometry never
    overflows: on every applicable problem with a non-negative batch size
    and at most 262112 output channels [PrepareForUsage] returns.  The bound
    is sharp: with 262128 channels, input height 131076 and vertical padding
    5 the problem is applicable and the call is undefined. *)
Theorem PrepareForUsage_channels_bound :
  (forall (NDEBUG : bool) GenerateClangDefsym (p : ImplementationSearchParameters),
      IsCorrect NDEBUG p = Ret true ->
      0 <= batch_sz p <= INT_MAX ->
      n_outputs p <= 262112 ->
      exists r, PrepareForUsage NDEBUG GenerateClangDefsym p = Ret r) /\
  (IsCorrect false params_edge = Ret true /\
   n_outputs params_edge = 262128 /\
   PrepareForUsage false defsym_text params_edge = Undefined).
Proof.
  split; [| repeat split].
  intros NDEBUG G p Hc Hb Hn. apply IsCorrect_true_shape in Hc.
  destruct (out_h_shape p Hc) as [_ Bh].
  destruct (half_channels p Hc) as [Hd8 Hge].
  assert (Hd : dim1 p <= INT_MAX).
  { unfold dim1.
    set (oh := out_size (in_height p) (pad1 p) (kernel_size1 p) (kernel_stride1 p)) in *.
    rewrite (align_up_div oh 4) by lia.
    rewrite (align_up_of_multiple (n_outputs p / 2) 8) by (assumption || lia).
    pose proof (align_up_lt oh 4 ltac:(lia)) as Hlt.
    pose proof (align_up_ge oh 4 ltac:(lia)) as Hge4.
    unfold align_up in Hlt, Hge4.
    assert (0 <= ceil_div oh 4 <= 16386) by lia.
    assert (n_outputs p / 2 <= 131056) by (apply Z.div_le_upper_bound; lia).
    limits. nia. }
  destruct (PrepareForUsage_applicable NDEBUG G p Hc Hb Hd) as [options E].
  eexists. exact E.
Qed.

Lemma PrepareForUsage_channels_bound_witness :
  exists r, PrepareForUsage false defsym_text params_small = Ret r.
Proof.
  apply (proj1 PrepareForUsage_channels_bound false defsym_text params_small).
  - reflexivity.
  - vm_compute. split; discriminate.
  - vm_compute. discriminate.
Defined.

(** ** The implicit-GEMM solver, continued *)

Section ImplicitGemmFurtherExamples.
Import solver.

(** The 1x1 example with an empty batch. *)
Definition ctx_empty_batch : ConvolutionContext :=
  bwd_ctx miopenHalf 1 0 64 128 28 28 28 28 1 1.

(** The 1x1 example in four groups. *)
Definition ctx_grouped : ConvolutionContext :=
  bwd_ctx miopenHalf 4 128 256 512 28 28 28 28 1 1.

End ImplicitGemmFurtherExamples.

Section ImplicitGemmFurther.
Import solver.

Variable IsXdlopsSupport : ConvolutionContext -> bool.
Variable GetEPackLength : ConvolutionContext -> bool -> Z.
Variable use_amd_inline_asm : ConvolutionContext -> bool.
Variable support_amd_buffer_atomic_add : ConvolutionContext -> bool.
Variable MIOPEN_DEBUG_IMPLICIT_GEMM_XDLOPS_INLINE_ASM : bool.
Variable MIOPEN_DEBUG_CONV_IMPLICIT_GEMM_XDLOPS_EMULATE : bool.

Local Abbreviation GetSolution' :=
  (GetSolution IsXdlopsSupport GetEPackLength use_amd_inline_asm
     support_amd_buffer_atomic_add MIOPEN_DEBUG_IMPLICIT_GEMM_XDLOPS_INLINE_ASM
     MIOPEN_DEBUG_CONV_IMPLICIT_GEMM_XDLOPS_EMULATE).

Lemma size_mul_range a b : 0 <= size_mul a b < SIZE_MOD.
Proof. unfold size_mul. apply Z.mod_pos_bound. reflexivity. Qed.

(** A factor that divides 2^64 survives the wrap-around of a product. *)
Lemma size_mul_divide d a b :
  (d | SIZE_MOD) -> (d | a) -> (d | size_mul a b).
Proof.
  intros HS Ha. unfold size_mul.
  rewrite Z.mod_eq by discriminate.
  apply Z.divide_sub_r.
  - now apply Z.divide_mul_l.
  - now apply Z.divide_mul_l.
Qed.

(** X14.  For every context the workspace size is a whole number of fp32
    elements that fits [std::size_t]: it is a multiple of 4 below 2^64, also
    when the product of the sizes wraps around. *)
Theorem GetWorkspaceSize_whole_floats (ctx : ConvolutionContext) :
  (4 | GetWorkspaceSize ctx) /\ 0 <= GetWorkspaceSize ctx < SIZE_MOD.
Proof.
  unfold GetWorkspaceSize. destruct (IsFp32 ctx).
  - split; [exists 0; reflexivity | split; [lia | reflexivity]].
  - split; [|apply size_mul_range].
    unfold size_mul at 1. rewrite Z.mul_comm. fold (size_mul (to_size_t (GetTypeSize miopenFloat))
      (size_mul (size_mul (size_mul (to_size_t (GetBatchN ctx))
         (to_size_t (GetInputChannelC ctx))) (to_size_t (GetInputHeightHi ctx)))
         (to_size_t (GetInputWidthWi ctx)))).
    apply size_mul_divide.
    + exists 4611686018427387904. reflexivity.
    + exists 1. reflexivity.
Qed.

(** X15.  On a context that passes [IsApplicable] with a positive group
    count, a non-negative K and a positive element-pack length, the number
    of output channels per group is a multiple of 16 times the element-pack
    length. *)
Theorem IsApplicable_channels_multiple (ctx : ConvolutionContext) :
  0 < group_counts ctx ->
  0 <= GetOutputChannelK ctx <= INT_MAX ->
  INT_MIN <= GetInputChannelC ctx <= INT_MAX ->
  0 < GetEPackLength ctx true <= INT_MAX ->
  IsApplicable IsXdlopsSupport GetEPackLength ctx = Ret true ->
  (16 * GetEPackLength ctx true | GetOutputChannelK ctx / group_counts ctx).
Proof.
  intros Hg Hk Hc He Ha.
  rewrite (IsApplicable_value IsXdlopsSupport GetEPackLength ctx Hg Hk Hc He) in Ha.
  injection Ha as Ha.
  rewrite Z.quot_div_nonneg in Ha by lia.
  apply andb_true_iff in Ha as [_ Ha]. apply andb_true_iff in Ha as [_ Ha].
  apply andb_true_iff in Ha as [_ Ha]. apply andb_true_iff in Ha as [Hr Ha].
  apply andb_true_iff in Ha as [_ Hq].
  apply Z.eqb_eq in Hr, Hq.
  apply Z.mod_divide in Hr; [|lia]. apply Z.mod_divide in Hq; [|lia].
  destruct Hr as [a Hka]. rewrite Hka in *. rewrite Z.div_mul in Hq by lia.
  destruct Hq as [b ->]. exists b. ring.
Qed.

(** X16.  For every context, applicable or not, [GetSolution] gives a global
    work size (g0, 1, 1) in which g0 is a multiple of the local work size
    256 and fits [std::size_t]. *)
Theorem GetSolution_global_multiple_of_local (ctx : ConvolutionContext) :
  exists k g0,
    construction_params (GetSolution' ctx) = [k] /\
    l_wk k = [256; 1; 1] /\ g_wk k = [g0; 1; 1] /\
    (256 | g0) /\ 0 <= g0 < SIZE_MOD.
Proof.
  destruct (GetSolution_kernel IsXdlopsSupport GetEPackLength use_amd_inline_asm
              support_amd_buffer_atomic_add MIOPEN_DEBUG_IMPLICIT_GEMM_XDLOPS_INLINE_ASM
              MIOPEN_DEBUG_CONV_IMPLICIT_GEMM_XDLOPS_EMULATE ctx)
    as (options & file & name & E).
  do 2 eexists. split; [exact E|]. cbn [l_wk g_wk].
  split; [reflexivity|]. split; [reflexivity|].
  split; [|apply size_mul_range].
  apply size_mul_divide.
  - exists 72057594037927936. reflexivity.
  - exists 1. reflexivity.
Qed.

(** X17.  [GetSolution] does not look at the applicability of its context:
    when C*Y*X or N*Ho*Wo, as [std::size_t] values, is below 128 (an empty
    batch, a missing channel, a small filter), the grid is empty and the
    global work size is (0, 1, 1). *)
Theorem GetSolution_empty_grid (ctx : ConvolutionContext) :
  (GetInputChannelC ctx * GetFilterHeightY ctx * GetFilterWidthX ctx) mod SIZE_MOD < 128 \/
  (GetBatchN ctx * GetOutputHeightHo ctx * GetOutputWidthWo ctx) mod SIZE_MOD < 128 ->
  exists k,
    construction_params (GetSolution' ctx) = [k] /\ g_wk k = [0; 1; 1].
Proof.
  intro H.
  destruct (GetSolution_kernel IsXdlopsSupport GetEPackLength use_amd_inline_asm
              support_amd_buffer_atomic_add MIOPEN_DEBUG_IMPLICIT_GEMM_XDLOPS_INLINE_ASM
              MIOPEN_DEBUG_CONV_IMPLICIT_GEMM_XDLOPS_EMULATE ctx)
    as (options & file & name & E).
  eexists. split; [exact E|]. cbn [g_wk].
  set (M := (GetInputChannelC ctx * GetFilterHeightY ctx * GetFilterWidthX ctx)
              mod SIZE_MOD) in *.
  set (Nd := (GetBatchN ctx * GetOutputHeightHo ctx * GetOutputWidthWo ctx)
               mod SIZE_MOD) in *.
  assert (HM : 0 <= M) by (apply Z.mod_pos_bound; reflexivity).
  assert (HN : 0 <= Nd) by (apply Z.mod_pos_bound; reflexivity).
  assert (E0 : size_mul (M / 128) (Nd / 128) = 0).
  { unfold size_mul. destruct H as [H | H].
    - rewrite (Z.div_small M 128) by lia. reflexivity.
    - rewrite (Z.div_small Nd 128) by lia. now rewrite Z.mul_0_r. }
  rewrite E0. reflexivity.
Qed.

(** X18.  On an applicable context whose group count divides C and whose
    products do not wrap around, the launch covers the GEMM exactly: the
    grid has one work-group per 128 x 128 tile, so g0 * 64 = M * N_dim for
    the global work size (g0, 1, 1), and the launch is not empty when M and
    N_dim are positive. *)
Theorem GetSolution_covers_gemm (ctx : ConvolutionContext) :
  IsApplicable IsXdlopsSupport GetEPackLength ctx = Ret true ->
  (group_counts ctx | GetInputChannelC ctx) ->
  0 <= GetInputChannelC ctx * GetFilterHeightY ctx * GetFilterWidthX ctx < SIZE_MOD ->
  0 <= GetBatchN ctx * GetOutputHeightHo ctx * GetOutputWidthWo ctx < SIZE_MOD ->
  256 * (GetInputChannelC ctx * GetFilterHeightY ctx * GetFilterWidthX ctx / 128
         * (GetBatchN ctx * GetOutputHeightHo ctx * GetOutputWidthWo ctx / 128))
    < SIZE_MOD ->
  exists k g0,
    construction_params (GetSolution' ctx) = [k] /\ g_wk k = [g0; 1; 1] /\
    g0 * 64 = (GetInputChannelC ctx * GetFilterHeightY ctx * GetFilterWidthX ctx)
              * (GetBatchN ctx * GetOutputHeightHo ctx * GetOutputWidthWo ctx) /\
    (0 < GetInputChannelC ctx * GetFilterHeightY ctx * GetFilterWidthX ctx ->
     0 < GetBatchN ctx * GetOutputHeightHo ctx * GetOutputWidthWo ctx ->
     256 <= g0).
Proof.
  intros Ha Hgc Hm Hn Hg.
  destruct (IsApplicable_true_divides IsXdlopsSupport GetEPackLength ctx Ha)
    as (Hg0 & Dn & Dc).
  destruct (GetSolution_kernel IsXdlopsSupport GetEPackLength use_amd_inline_asm
              support_amd_buffer_atomic_add MIOPEN_DEBUG_IMPLICIT_GEMM_XDLOPS_INLINE_ASM
              MIOPEN_DEBUG_CONV_IMPLICIT_GEMM_XDLOPS_EMULATE ctx)
    as (options & file & name & E).
  assert (DM : (128 | GetInputChannelC ctx * GetFilterHeightY ctx * GetFilterWidthX ctx)).
  { destruct Hgc as [q Hq]. rewrite Hq in *.
    rewrite Z.quot_mul in Dc by assumption.
    replace (q * group_counts ctx * GetFilterHeightY ctx * GetFilterWidthX ctx)
      with (group_counts ctx * (q * GetFilterHeightY ctx * GetFilterWidthX ctx)) by ring.
    now apply Z.divide_mul_r. }
  set (M := GetInputChannelC ctx * GetFilterHeightY ctx * GetFilterWidthX ctx) in *.
  set (Nd := GetBatchN ctx * GetOutputHeightHo ctx * GetOutputWidthWo ctx) in *.
  destruct DM as [a HMa], Dn as [b HNb].
  assert (Ea : M / 128 = a) by (rewrite HMa; apply Z.div_mul; lia).
  assert (Eb : Nd / 128 = b) by (rewrite HNb; apply Z.div_mul; lia).
  rewrite Ea, Eb in Hg.
  do 2 eexists. split; [exact E|]. cbn [g_wk].
  rewrite (Z.mod_small M), (Z.mod_small Nd), Ea, Eb by assumption.
  unfold size_mul.
  rewrite (Z.mod_small (a * b)) by (limits; nia).
  rewrite Z.mod_small by (limits; nia).
  split; [reflexivity|]. split; [nia|].
  intros HM HN. nia.
Qed.

(** The kernel [GetSolution] names. *)
Lemma GetSolution_kernel_names ctx :
  exists k,
    construction_params (GetSolution' ctx) = [k] /\
    kernel_file k =
      (if group_counts ctx >? 1
       then "gridwise_convolution_backward_data_implicit_gemm_v1r1_xdlops_gnchw_gkcyx_gnkhw.cpp"
       else "gridwise_convolution_backward_data_implicit_gemm_v1r1_xdlops_nchw_kcyx_nkhw.cpp")%string /\
    kernel_name k =
      (if group_counts ctx >? 1
       then "gridwise_convolution_backward_data_implicit_gemm_v1r1_xdlops_gnchw_gkcyx_gnkhw"
       else "gridwise_convolution_backward_data_implicit_gemm_v1r1_xdlops_nchw_kcyx_nkhw")%string.
Proof.
  eexists. unfold GetSolution. cbv zeta. cbn [construction_params app].
  split; [reflexivity|]. cbn [kernel_file kernel_name].
  destruct (group_counts ctx >? 1); split; reflexivity.
Qed.

(** X19.  In both branches of the kernel selection the file is the kernel
    name followed by ".cpp", and the grouped (gnchw/gkcyx/gnkhw) kernel is
    chosen exactly when the group count exceeds 1; a group count of 1, 0 or
    below selects the ungrouped kernel. *)
Theorem GetSolution_kernel_file_matches_name (ctx : ConvolutionContext) :
  exists k,
    construction_params (GetSolution' ctx) = [k] /\
    kernel_file k = (kernel_name k ++ ".cpp")%string /\
    (1 < group_counts ctx <->
     kernel_name k =
       "gridwise_convolution_backward_data_implicit_gemm_v1r1_xdlops_gnchw_gkcyx_gnkhw"%string) /\
    (group_counts ctx <= 1 <->
     kernel_name k =
       "gridwise_convolution_backward_data_implicit_gemm_v1r1_xdlops_nchw_kcyx_nkhw"%string).
Proof.
  destruct (GetSolution_kernel_names ctx) as (k & E & Ef & En).
  exists k. split; [exact E|]. rewrite Ef, En.
  destruct (Z.gtb_spec (group_counts ctx) 1).
  - split; [reflexivity|]. split; split; intro; try lia; try reflexivity; discriminate.
  - split; [reflexivity|]. split; split; intro; try lia; try reflexivity; discriminate.
Qed.

End ImplicitGemmFurther.

(** ** Undefined behaviour in IsApplicable *)

Section ImplicitGemmUndefined.
Import solver.

Variable IsXdlopsSupport : ConvolutionContext -> bool.
Variable GetEPackLength : ConvolutionContext -> bool -> Z.

(** The three early returns of [IsApplicable] all pass. *)
Definition early_checks (ctx : ConvolutionContext) : bool :=
  IsBackwardData (direction ctx) && Is2d ctx
  && (IsFp32 ctx || IsFp16 ctx || IsBfp16 ctx).

Lemma quot_min k g :
  0 < g -> INT_MIN <= k -> k ÷ g = INT_MIN -> k = INT_MIN /\ g = 1.
Proof.
  intros Hg Hk E.
  destruct (Z.le_gt_cases 0 k) as [H0 | H0].
  - rewrite Z.quot_div_nonneg in E by lia.
    pose proof (Z.div_pos k g H0 Hg). limits. lia.
  - replace k with (- (- k)) in E by lia. rewrite Z.quot_opp_l in E by lia.
    rewrite Z.quot_div_nonneg in E by lia.
    pose proof (Z.mul_div_le (- k) g Hg). limits. nia.
Qed.

(** A quotient of [int]s leaves [int] only for INT_MIN / -1. *)
Lemma quot_in_int k g :
  INT_MIN <= k <= INT_MAX -> g <> 0 ->
  (in_int (k ÷ g) = false <-> k = INT_MIN /\ g = -1).
Proof.
  intros Hk Hg. split.
  - intro H.
    destruct (Z.lt_trichotomy g 0) as [Hneg | [Hz | Hpos]]; [|contradiction|].
    + replace g with (- (- g)) in H by lia. rewrite Z.quot_opp_r in H by lia.
      pose proof (quot_range k (- g) ltac:(lia) Hk) as Hr.
      destruct (Z.eq_dec (k ÷ - g) INT_MIN) as [E | N].
      * destruct (quot_min k (- g) ltac:(lia) ltac:(lia) E). split; [assumption | lia].
      * assert (T : in_int (- (k ÷ - g)) = true) by (apply in_int_iff; limits; lia).
        rewrite T in H. discriminate.
    + assert (T : in_int (k ÷ g) = true) by (apply in_int_iff; now apply quot_range).
      rewrite T in H. discriminate.
  - intros [-> ->]. reflexivity.
Qed.

Lemma int_div_outcome k g :
  INT_MIN <= k <= INT_MAX ->
  (int_div k g = Undefined /\ (g = 0 \/ (k = INT_MIN /\ g = -1))) \/
  (int_div k g = Ret (k ÷ g) /\ g <> 0 /\ ~ (k = INT_MIN /\ g = -1)).
Proof.
  intro Hk. unfold int_div, int_of.
  destruct (Z.eqb_spec g 0) as [E | N]; [left; split; [reflexivity | now left]|].
  destruct (in_int (k ÷ g)) eqn:Hi.
  - right. split; [reflexivity|]. split; [assumption|].
    intro H. apply (quot_in_int k g Hk N) in H. congruence.
  - left. split; [reflexivity|]. right. now apply (quot_in_int k g Hk N).
Qed.

(** X20.  [IsApplicable] divides by the group count and by the element-pack
    length before it tests anything about them.  On [int] fields the call
    is undefined exactly when the three early returns pass (BackwardData,
    2D, fp32/fp16/bfp16) and the group count is 0, or a channel division is
    INT_MIN / -1, or the element-pack length is 0; it never stops on an
    assertion. *)
Theorem IsApplicable_undefined_iff (ctx : ConvolutionContext) :
  INT_MIN <= GetOutputChannelK ctx <= INT_MAX ->
  INT_MIN <= GetInputChannelC ctx <= INT_MAX ->
  INT_MIN <= GetEPackLength ctx true <= INT_MAX ->
  (IsApplicable IsXdlopsSupport GetEPackLength ctx = Undefined <->
   early_checks ctx = true /\
   (group_counts ctx = 0 \/
    (group_counts ctx = -1 /\
     (GetOutputChannelK ctx = INT_MIN \/ GetInputChannelC ctx = INT_MIN)) \/
    GetEPackLength ctx true = 0)) /\
  IsApplicable IsXdlopsSupport GetEPackLength ctx <> AssertFail.
Proof.
  intros Hk Hc He. unfold IsApplicable, early_checks.
  destruct (IsBackwardData (direction ctx));
    [|split; [split; [discriminate | intros [? _]; discriminate] | discriminate]].
  destruct (Is2d ctx);
    [|split; [split; [discriminate | intros [? _]; discriminate] | discriminate]].
  destruct (IsFp32 ctx || IsFp16 ctx || IsBfp16 ctx);
    [|split; [split; [discriminate | intros [? _]; discriminate] | discriminate]].
  cbn [negb andb].
  destruct (int_div_outcome (GetOutputChannelK ctx) (group_counts ctx) Hk)
    as [[-> Hu] | (-> & Hg & Hnk)]; cbn [bind].
  { split; [|discriminate]. split; [intros _; split; [reflexivity | tauto] | reflexivity]. }
  destruct (int_div_outcome (GetInputChannelC ctx) (group_counts ctx) Hc)
    as [[-> Hu] | (-> & _ & Hnc)]; cbn [bind].
  { split; [|discriminate]. split; [intros _; split; [reflexivity | tauto] | reflexivity]. }
  unfold size_rem, size_div.
  destruct (Z.eqb_spec (to_size_t (GetEPackLength ctx true)) 0) as [E | N].
  - cbn [bind]. split; [|discriminate].
    split; [intros _; split; [reflexivity|] | reflexivity].
    right. right. unfold to_size_t in E.
    destruct (Z.le_gt_cases 0 (GetEPackLength ctx true)).
    + rewrite Z.mod_small in E by (limits; lia). exact E.
    + assert ((GetEPackLength ctx true + SIZE_MOD) mod SIZE_MOD = 0).
      { rewrite <- E. rewrite <- (Z.mul_1_l SIZE_MOD) at 1.
        apply Z.mod_add. discriminate. }
      rewrite Z.mod_small in * by (limits; lia). limits. lia.
  - assert (Hne : GetEPackLength ctx true <> 0).
    { intro E. apply N. rewrite E. reflexivity. }
    cbn [bind].
    destruct (negb (_ =? 0)); cbn [bind];
      (split; [|discriminate]);
      (split; [discriminate | intros [_ H]; exfalso; tauto]).
Qed.

End ImplicitGemmUndefined.

Section ImplicitGemmFurtherInstances.
Import solver.

(** X15, at the 1x1 example: 64 channels, element-pack length 4. *)
Lemma IsApplicable_channels_multiple_witness : (16 * 4 | 64 / 1).
Proof.
  apply (IsApplicable_channels_multiple xdlops_on epack_by_type ctx_1x1).
  - reflexivity.
  - split; discriminate.
  - split; discriminate.
  - split; [reflexivity | discriminate].
  - reflexivity.
Defined.

(** X17, at the 1x1 example with an empty batch. *)
Lemma GetSolution_empty_grid_witness :
  exists k,
    construction_params
      (GetSolution xdlops_on epack_by_type inline_asm_on atomic_add_off false false
         ctx_empty_batch) = [k] /\
    g_wk k = [0; 1; 1].
Proof.
  apply (GetSolution_empty_grid xdlops_on epack_by_type inline_asm_on atomic_add_off
           false false ctx_empty_batch).
  right. reflexivity.
Defined.

(** X18, at the grouped example: M = 512, N_dim = 128 * 28 * 28. *)
Lemma GetSolution_covers_gemm_witness :
  exists k g0,
    construction_params
      (GetSolution xdlops_on epack_by_type inline_asm_on atomic_add_off false false
         ctx_grouped) = [k] /\
    g_wk k = [g0; 1; 1] /\
    g0 * 64 = (512 * 1 * 1) * (128 * 28 * 28) /\
    (0 < 512 * 1 * 1 -> 0 < 128 * 28 * 28 -> 256 <= g0).
Proof.
  apply (GetSolution_covers_gemm xdlops_on epack_by_type inline_asm_on atomic_add_off
           false false ctx_grouped).
  - reflexivity.
  - exists 128. reflexivity.
  - vm_compute. split; [discriminate | reflexivity].
  - vm_compute. split; [discriminate | reflexivity].
  - vm_compute. reflexivity.
Defined.

(** X20, at the 1x1 example with a group count of 0. *)
Lemma IsApplicable_undefined_iff_witness :
  (IsApplicable xdlops_on epack_by_type ctx_no_groups = Undefined <->
   early_checks ctx_no_groups = true /\
   (0 = 0 \/ (0 = -1 /\ (64 = INT_MIN \/ 128 = INT_MIN)) \/ 4 = 0)) /\
  IsApplicable xdlops_on epack_by_type ctx_no_groups <> AssertFail.
Proof.
  apply (IsApplicable_undefined_iff xdlops_on epack_by_type ctx_no_groups).
  - split; discriminate.
  - split; discriminate.
  - split; discriminate.
Defined.

End ImplicitGemmFurtherInstances.

(** ** The compile options of the implicit-GEMM solver *)

Section ImplicitGemmOptions.
Import solver.
Local Open Scope string_scope.

Variable IsXdlopsSupport : ConvolutionContext -> bool.
Variable GetEPackLength : ConvolutionContext -> bool -> Z.
Variable use_amd_inline_asm : ConvolutionContext -> bool.
Variable support_amd_buffer_atomic_add : ConvolutionContext -> bool.
Variable MIOPEN_DEBUG_IMPLICIT_GEMM_XDLOPS_INLINE_ASM : bool.
Variable MIOPEN_DEBUG_CONV_IMPLICIT_GEMM_XDLOPS_EMULATE : bool.

(** The text [s] holds the definition [key ++ value], followed by the
    start [next] of the definition after it. *)
Definition defines (key value next s : string) : Prop :=
  exists pre post, s = pre ++ key ++ value ++ next ++ post.

Lemma append_associative (a b c : string) : (a ++ b) ++ c = a ++ b ++ c.
Proof. induction a as [|x a IH]; simpl; [reflexivity | now rewrite IH]. Qed.

Lemma defines_here key value next post :
  defines key value next (key ++ value ++ next ++ post).
Proof. exists "", post. reflexivity. Qed.

Lemma defines_skip key value next a s :
  defines key value next s -> defines key value next (a ++ s).
Proof.
  intros (pre & post & ->). exists (a ++ pre), post.
  now rewrite append_associative.
Qed.

Lemma defines_app key value next s b :
  defines key value next s -> defines key value next (s ++ b).
Proof.
  intros (pre & post & ->). exists pre, (post ++ b).
  now rewrite !append_associative.
Qed.

(** Reading back a decimal text. *)
Definition parse_unsigned (s : string) : option Z :=
  option_map (fun d => Z.of_N (N.of_uint d)) (NilZero.uint_of_string s).

Lemma parse_to_string_unsigned z :
  (0 <= z)%Z -> parse_unsigned (to_string_unsigned z) = Some z.
Proof.
  intro Hz. unfold parse_unsigned, to_string_unsigned.
  rewrite NilZero.usu.
  - cbn [option_map]. now rewrite DecimalN.Unsigned.of_to, Z2N.id.
  - destruct (Z.to_N z) as [|q]; [discriminate | apply DecimalPos.Unsigned.to_uint_nonnil].
Qed.

(** X21.  The grid size compiled into the kernel is the grid size of the
    launch.  With g = ((C*Y*X mod 2^64) / 128 * ((N*Ho*Wo mod 2^64) / 128))
    mod 2^64, a [std::size_t] value, for every context the option string
    defines CK_PARAM_DEPENDENT_GRID_SIZE as the decimal text of g, a text
    that reads back as g, and the global work size is
    (256 * g mod 2^64, 1, 1). *)
Theorem GetSolution_grid_size_option (ctx : ConvolutionContext) :
  exists k,
    construction_params
      (GetSolution IsXdlopsSupport GetEPackLength use_amd_inline_asm
         support_amd_buffer_atomic_add MIOPEN_DEBUG_IMPLICIT_GEMM_XDLOPS_INLINE_ASM
         MIOPEN_DEBUG_CONV_IMPLICIT_GEMM_XDLOPS_EMULATE ctx) = [k] /\
    defines " -DCK_PARAM_DEPENDENT_GRID_SIZE="
            (to_string_unsigned
               (size_mul
                  ((GetInputChannelC ctx * GetFilterHeightY ctx * GetFilterWidthX ctx)
                     mod SIZE_MOD / 128)
                  ((GetBatchN ctx * GetOutputHeightHo ctx * GetOutputWidthWo ctx)
                     mod SIZE_MOD / 128)))
            " -DCK_THREADWISE_GEMM_USE_AMD_INLINE_ASM=" (comp_options k) /\
    parse_unsigned
      (to_string_unsigned
         (size_mul
            ((GetInputChannelC ctx * GetFilterHeightY ctx * GetFilterWidthX ctx)
               mod SIZE_MOD / 128)
            ((GetBatchN ctx * GetOutputHeightHo ctx * GetOutputWidthWo ctx)
               mod SIZE_MOD / 128)))
    = Some (size_mul
              ((GetInputChannelC ctx * GetFilterHeightY ctx * GetFilterWidthX ctx)
                 mod SIZE_MOD / 128)
              ((GetBatchN ctx * GetOutputHeightHo ctx * GetOutputWidthWo ctx)
                 mod SIZE_MOD / 128)) /\
    g_wk k =
      [size_mul 256
         (size_mul
            ((GetInputChannelC ctx * GetFilterHeightY ctx * GetFilterWidthX ctx)
               mod SIZE_MOD / 128)
            ((GetBatchN ctx * GetOutputHeightHo ctx * GetOutputWidthWo ctx)
               mod SIZE_MOD / 128));
       1%Z; 1%Z].
Proof.
  eexists. unfold GetSolution. cbv zeta. cbn [construction_params app].
  split; [reflexivity|]. cbn [comp_options g_wk]. rewrite !size_mul3.
  split; [|split; [|reflexivity]].
  - destruct (IsFp32 ctx); apply defines_app;
      repeat first [ apply defines_here | apply defines_skip ].
  - apply parse_to_string_unsigned. unfold size_mul.
    apply Z.mod_pos_bound. reflexivity.
Qed.

End ImplicitGemmOptions.
